(** * Invoice validation pipeline of [pdf_vendor_matcher.py]

    A shallow embedding of [PDFVendorMatcher]: the registry loader for the
    rate sheet, the three compliance checkers, the routing decision and the
    orchestrator [process_pdf], followed by the properties of the
    specification that concern them.

    Python values are embedded as follows.
    - A spreadsheet cell (what pandas hands back, or the [None] of a missing
      dictionary key) is a [scalar].
    - A value decoded from JSON, or a dictionary built by the code, is a
      [pyval]; dictionaries are finite maps with string keys.
    - Text is a [string] of bytes; [str.lower] and [str.strip] act on the
      ASCII range.
    - A float is the rational it denotes: the 5% tolerance is computed
      exactly, rounding of binary floating point is outside the model.
    - The external text-understanding service and the PDF library form the
      [world]; every request sent to the service is recorded in a log. *)

From Stdlib Require Import QArith Ascii String.
From stdpp Require Import gmap strings list fin_maps pretty.

Set Warnings "-register-all".
Local Open Scope string_scope.

(** ** Python values *)

Inductive scalar :=
| SNone
| SNaN
| SNaT
| SBool (b : bool)
| SInt (z : Z)
| SFloat (q : Q)
| SStr (s : string)
| SDate (y m d : Z).

Inductive pyval :=
| PScalar (s : scalar)
| PList (l : list pyval)
| PDict (d : gmap string pyval).

Coercion PScalar : scalar >-> pyval.

Abbreviation pydict := (gmap string pyval).
Abbreviation record := (gmap string scalar).

Definition PNone : pyval := PScalar SNone.
Definition PTrue : pyval := PScalar (SBool true).
Definition PFalse : pyval := PScalar (SBool false).
Definition PStr (s : string) : pyval := PScalar (SStr s).

(** Exceptions that the modelled code can let escape. *)
Inductive exn := TypeError | AttributeError | IndexError | KeyError.

Inductive outcome (A : Type) :=
| Ret (a : A)
| Raise (e : exn).
Arguments Ret {A} a.
Arguments Raise {A} e.

(** ** Text primitives *)

Module Text.

Definition is_empty (s : string) : bool :=
  match s with EmptyString => true | String _ _ => false end.

(** [c.isspace()] on the ASCII range: tab .. carriage return, the four
    separators 28 .. 31 and the blank. *)
Definition is_space (c : ascii) : bool :=
  let n := nat_of_ascii c in
  ((9 <=? n)%nat && (n <=? 13)%nat) || ((28 <=? n)%nat && (n <=? 32)%nat).

Definition lower_char (c : ascii) : ascii :=
  let n := nat_of_ascii c in
  if ((65 <=? n)%nat && (n <=? 90)%nat) then ascii_of_nat (n + 32) else c.

(** [s.lower()] *)
Fixpoint lower (s : string) : string :=
  match s with
  | EmptyString => EmptyString
  | String c s' => String (lower_char c) (lower s')
  end.

Fixpoint lstrip (s : string) : string :=
  match s with
  | EmptyString => EmptyString
  | String c s' => if is_space c then lstrip s' else s
  end.

(** Drops the trailing white space: a character is kept when something
    that is kept follows it, or when it is not white space itself. *)
Fixpoint rstrip (s : string) : string :=
  match s with
  | EmptyString => EmptyString
  | String c s' =>
      match rstrip s' with
      | EmptyString => if is_space c then EmptyString else String c EmptyString
      | String _ _ as t => String c t
      end
  end.

(** [s.strip()] *)
Definition strip (s : string) : string := rstrip (lstrip s).

(** [p in s] for two strings: [p] occurs in [s] as a contiguous run. *)
Fixpoint contains (p s : string) : bool :=
  String.prefix p s ||
  match s with
  | EmptyString => false
  | String _ s' => contains p s'
  end.

(** [sep.join(l)] *)
Fixpoint join (sep : string) (l : list string) : string :=
  match l with
  | [] => EmptyString
  | [x] => x
  | x :: rest => x +:+ sep +:+ join sep rest
  end.

(** [x in l] for a list of strings. *)
Definition mem (x : string) (l : list string) : bool :=
  existsb (String.eqb x) l.

End Text.

(** ** Truth value, [str], [pd.isna] *)

Definition scalar_truthy (c : scalar) : bool :=
  match c with
  | SNone => false
  | SNaN | SNaT => true
  | SBool b => b
  | SInt z => negb (z =? 0)%Z
  | SFloat q => negb (Qeq_bool q 0)
  | SStr s => negb (Text.is_empty s)
  | SDate _ _ _ => true
  end.

Definition truthy (v : pyval) : bool :=
  match v with
  | PScalar c => scalar_truthy c
  | PList l => match l with [] => false | _ :: _ => true end
  | PDict d => negb (size d =? 0)%nat
  end.

(** [a or b] *)
Definition py_or {A} (t : A -> bool) (a b : A) : A := if t a then a else b.

(** [pd.isna(c)] / [pd.notna(c)] on a cell. *)
Definition isna (c : scalar) : bool :=
  match c with
  | SNone | SNaN | SNaT => true
  | _ => false
  end.

Definition notna (c : scalar) : bool := negb (isna c).

Fixpoint frac_digits (fuel : nat) (r d : Z) : string :=
  match fuel with
  | O => EmptyString
  | S fuel' =>
      if (r =? 0)%Z then EmptyString
      else pretty (r * 10 / d)%Z +:+ frac_digits fuel' (r * 10 mod d)%Z d
  end.

(** Text of a float: sign, integral part, a dot and the decimal expansion
    of the fraction (at least one digit, at most 17). *)
Definition float_repr (q : Q) : string :=
  let n := Qnum q in
  let d := Z.pos (Qden q) in
  let a := Z.abs n in
  let fr := frac_digits 17 (a mod d)%Z d in
  (if (n <? 0)%Z then "-" else EmptyString)
  +:+ pretty (a / d)%Z +:+ "." +:+ (if Text.is_empty fr then "0" else fr).

Definition pad2 (z : Z) : string :=
  if (z <? 10)%Z then "0" +:+ pretty z else pretty z.

Definition pad4 (z : Z) : string :=
  if (z <? 10)%Z then "000" +:+ pretty z
  else if (z <? 100)%Z then "00" +:+ pretty z
  else if (z <? 1000)%Z then "0" +:+ pretty z
  else pretty z.

(** [str(c)] *)
Definition py_str (c : scalar) : string :=
  match c with
  | SNone => "None"
  | SNaN => "nan"
  | SNaT => "NaT"
  | SBool true => "True"
  | SBool false => "False"
  | SInt z => pretty z
  | SFloat q => float_repr q
  | SStr s => s
  | SDate y m d => pad4 y +:+ "-" +:+ pad2 m +:+ "-" +:+ pad2 d +:+ " 00:00:00"
  end.

(** [v is False] *)
Definition is_False (v : pyval) : bool :=
  match v with
  | PScalar (SBool false) => true
  | _ => false
  end.


(** [v is None] *)
Definition is_None (v : pyval) : bool :=
  match v with
  | PScalar SNone => true
  | _ => false
  end.

(** [d.get(k)] and [d.get(k, dflt)] *)
Definition dict_get (d : pydict) (k : string) : pyval := default PNone (d !! k).
Definition dict_get_or (d : pydict) (k : string) (dflt : pyval) : pyval :=
  default dflt (d !! k).
Definition record_get (r : record) (k : string) : scalar := default SNone (r !! k).

(** Numbers as Python arithmetic sees them. *)
Inductive num := Fin (q : Q) | NotANumber.

Definition as_number (c : scalar) : outcome num :=
  match c with
  | SInt z => Ret (Fin (inject_Z z))
  | SFloat q => Ret (Fin q)
  | SBool b => Ret (Fin (if b then 1 else 0))
  | SNaN => Ret NotANumber
  | SNone | SNaT | SStr _ | SDate _ _ _ => Raise TypeError
  end.

Definition num_mul (a b : num) : num :=
  match a, b with Fin x, Fin y => Fin (x * y) | _, _ => NotANumber end.
Definition num_add (a b : num) : num :=
  match a, b with Fin x, Fin y => Fin (x + y) | _, _ => NotANumber end.
Definition num_sub (a b : num) : num :=
  match a, b with Fin x, Fin y => Fin (x - y) | _, _ => NotANumber end.

(** [format(x, ',.2f')]: two decimals, rounded half to even, thousands
    separated by commas. *)
Definition round_half_even (q : Q) : Z :=
  let n := Qnum q in
  let d := Z.pos (Qden q) in
  let f := (n / d)%Z in
  let r2 := (2 * (n mod d))%Z in
  if (r2 <? d)%Z then f
  else if (d <? r2)%Z then (f + 1)%Z
  else if Z.even f then f else (f + 1)%Z.

Definition pad3 (z : Z) : string :=
  if (z <? 10)%Z then "00" +:+ pretty z
  else if (z <? 100)%Z then "0" +:+ pretty z
  else pretty z.

Fixpoint group3 (fuel : nat) (z : Z) : string :=
  match fuel with
  | O => pretty z
  | S fuel' =>
      if (z <? 1000)%Z then pretty z
      else group3 fuel' (z / 1000)%Z +:+ "," +:+ pad3 (z mod 1000)%Z
  end.

Definition fmt_2f (n : num) : string :=
  match n with
  | NotANumber => "nan"
  | Fin q =>
      let c := Z.abs (round_half_even (q * 100)) in
      (if Qle_bool 0 q then EmptyString else "-")
      +:+ group3 (Z.to_nat (Z.log2 c)) (c / 100)%Z +:+ "." +:+ pad2 (c mod 100)%Z
  end.

(** ** The world outside: PDF text and the text-understanding service *)

(** A request to the service, with the data its prompt is built from. *)
Inductive call :=
| VendorQuery (pdf_text : string) (vendor_list : list string)
| DateQuery (pdf_text : string) (contract_start contract_end : scalar)
| RateQuery (pdf_text : string) (expected_rate_type : scalar)
            (expected_amount min_amount max_amount : num).

(** What the ["data"] field of a 200 response turns out to be. *)
Inductive body :=
| NoData                  (* missing or empty *)
| Json (v : pyval)        (* [json.loads] accepts it *)
| FencedJson (v : pyval)  (* only the fenced block inside it parses *)
| Unparseable.            (* neither parses *)

(** What one request comes to: the [try] block raised (transport error,
    time-out, a body that is no JSON), or a response arrived. *)
Inductive api_reply :=
| CallRaised (msg : string)
| Response (status_code : Z) (data : body).

Record world := {
  extract_pdf_text : string -> string;
  post : call -> api_reply
}.

(** ** Computations that log their requests and may raise *)

Definition M (A : Type) : Type := (list call * outcome A)%type.

Definition ret {A} (a : A) : M A := ([], Ret a).
Definition lift {A} (o : outcome A) : M A := ([], o).
Definition bind {A B} (m : M A) (k : A -> M B) : M B :=
  match m with
  | (log, Ret a) => let '(log', r) := k a in ((log ++ log')%list, r)
  | (log, Raise e) => (log, Raise e)
  end.
Definition request (w : world) (c : call) : M api_reply := ([c], Ret (post w c)).

Definition calls {A} (m : M A) : list call := fst m.
Definition result {A} (m : M A) : outcome A := snd m.

Notation "x <- m ;; k" := (bind m (fun x => k))
  (at level 100, m at next level, right associativity).

Definition obind {A B} (o : outcome A) (k : A -> outcome B) : outcome B :=
  match o with
  | Ret a => k a
  | Raise e => Raise e
  end.

(** ** The matcher object *)

Record PDFVendorMatcher := {
  vendor_list : list string;
  vendor_data : gmap string record;
  amplify_api_url : option string;
  amplify_api_key : option string
}.

(** [not self.amplify_api_url or not self.amplify_api_key] is false. *)
Definition env_set (v : option string) : bool :=
  match v with
  | Some s => negb (Text.is_empty s)
  | None => false
  end.

Definition configured (self : PDFVendorMatcher) : bool :=
  env_set (amplify_api_url self) && env_set (amplify_api_key self).

(** [vendor_name in self.vendor_data], giving the entry when there is one;
    a list or a dictionary cannot be hashed. *)
Definition registry_lookup (self : PDFVendorMatcher) (vendor_name : pyval)
  : outcome (option record) :=
  match vendor_name with
  | PScalar (SStr s) => Ret (vendor_data self !! s)
  | PScalar _ => Ret None
  | PList _ | PDict _ => Raise TypeError
  end.

(** Dictionary literals. *)
Definition dict_of (l : list (string * pyval)) : pydict := list_to_map l.

(** ** Registry loader: the rate sheet *)

Definition rate_vocabulary : list string :=
  ["annual"; "monthly"; "weekly"; "hourly"; "biannual"; "as needed"; "variable"].

(** [row.iloc[k]] *)
Definition iloc (row : list scalar) (k : nat) : outcome scalar :=
  match row !! k with
  | Some c => Ret c
  | None => Raise IndexError
  end.

(** [isinstance(c, (int, float))] *)
Definition is_int_or_float (c : scalar) : bool :=
  match c with
  | SInt _ | SFloat _ | SBool _ | SNaN => true
  | _ => false
  end.

(** The inner loop over the cells [1 .. min(10, len(row)) - 1]: the first
    cell whose trimmed lower-case text is a rate keyword, if any. *)
Fixpoint find_rate_type (cells : list scalar) : option string :=
  match cells with
  | [] => None
  | c :: rest =>
      let cell_value := Text.lower (Text.strip (py_str c)) in
      if Text.mem cell_value rate_vocabulary then Some cell_value
      else find_rate_type rest
  end.

(** [self.vendor_data[name][key] = v] *)
Definition set_field (vd : gmap string record) (name key : string) (v : scalar)
  : gmap string record :=
  <[name := <[key := v]> (default ∅ (vd !! name))]> vd.

Record loader_state := {
  current_vendor : option string;
  loaded : gmap string record
}.

(** One iteration of the loop over the rows. The second component is the
    exception that ended the iteration, if one did; what had been written
    to [self.vendor_data] before stays written. *)
Definition rate_row (st : loader_state) (row : list scalar)
  : loader_state * option exn :=
  match iloc row 0 with
  | Raise e => (st, Some e)
  | Ret c0 =>
      if notna c0 && negb (Text.is_empty (Text.strip (py_str c0))) then
        let vendor_name := Text.strip (py_str c0) in
        if negb (String.eqb vendor_name "nan") && (3 <? String.length vendor_name)%nat then
          let vd1 :=
            match loaded st !! vendor_name with
            | Some _ => loaded st
            | None => <[vendor_name := ∅]> (loaded st)
            end in
          match iloc row 2 with
          | Raise e =>
              ({| current_vendor := Some vendor_name; loaded := vd1 |}, Some e)
          | Ret c2 =>
              let vd2 :=
                if notna c2 && is_int_or_float c2
                then set_field vd1 vendor_name "rate_amount" c2
                else vd1 in
              let vd3 :=
                match find_rate_type (drop 1 (take 10 row)) with
                | Some cell_value =>
                    set_field vd2 vendor_name "rate_type" (SStr cell_value)
                | None => vd2
                end in
              ({| current_vendor := Some vendor_name; loaded := vd3 |}, None)
          end
        else (st, None)
      else (st, None)
  end.

(** The loop: it stops at the first exception, which the enclosing
    [try] swallows. *)
Fixpoint rate_rows (st : loader_state) (rows : list (list scalar)) : loader_state :=
  match rows with
  | [] => st
  | row :: rest =>
      match rate_row st row with
      | (st', None) => rate_rows st' rest
      | (st', Some _) => st'
      end
  end.

(** [_load_rate_data]; [sheet] is [None] when reading the sheet raised. *)
Definition _load_rate_data (self : PDFVendorMatcher)
    (sheet : option (list (list scalar))) : PDFVendorMatcher :=
  match sheet with
  | None => self
  | Some rows =>
      let st := rate_rows {| current_vendor := None; loaded := vendor_data self |} rows in
      {| vendor_list := vendor_list self;
         vendor_data := loaded st;
         amplify_api_url := amplify_api_url self;
         amplify_api_key := amplify_api_key self |}
  end.

(** ** Vendor resolver *)

Definition no_vendor : pyval := PDict (dict_of [("vendor", PNone)]).

(** [query_amplify_api]: [None] when the service is not configured, the
    call raised or the status is not 200; the decoded answer otherwise,
    and [{"vendor": None}] for an empty or unparseable one. *)
Definition query_amplify_api (self : PDFVendorMatcher) (w : world)
    (pdf_text : string) : M pyval :=
  if negb (configured self) then ret PNone
  else
    reply <- request w (VendorQuery pdf_text (vendor_list self)) ;;
    match reply with
    | CallRaised _ => ret PNone
    | Response status_code data =>
        if (status_code =? 200)%Z then
          match data with
          | NoData => ret no_vendor
          | Json v => ret v
          | FencedJson v => ret v
          | Unparseable => ret no_vendor
          end
        else ret PNone
    end.

(** ** PO checker *)

Definition validate_po_number (self : PDFVendorMatcher) (pdf_text : string)
    (vendor_name : pyval) : outcome pydict :=
  obind (registry_lookup self vendor_name) (fun entry =>
  match entry with
  | None =>
      Ret (dict_of [("po_valid", PFalse);
                    ("reason", PStr "Vendor not found in database")])
  | Some vendor_info =>
      let expected_po := record_get vendor_info "current_po" in
      if negb (scalar_truthy expected_po) || isna expected_po then
        Ret (dict_of [("po_valid", PNone);
                      ("reason", PStr "No PO number in database for this vendor")])
      else
        let po_str := Text.strip (py_str expected_po) in
        if Text.contains (Text.lower po_str) (Text.lower pdf_text) then
          Ret (dict_of [("po_valid", PTrue); ("expected_po", PStr po_str);
                        ("reason", PStr "PO number found in PDF")])
        else
          Ret (dict_of [("po_valid", PFalse); ("expected_po", PStr po_str);
                        ("reason", PStr "PO number not found in PDF")])
  end).

(** ** Date-range checker *)

Definition date_failure (reason : string) : pyval :=
  PDict (dict_of [("date_valid", PFalse); ("reason", PStr reason)]).

Definition _validate_dates_with_llm (self : PDFVendorMatcher) (w : world)
    (pdf_text : string) (contract_start contract_end : scalar) : M pyval :=
  if negb (configured self) then
    ret (date_failure "API not configured for date validation")
  else
    reply <- request w (DateQuery pdf_text contract_start contract_end) ;;
    match reply with
    | CallRaised msg => ret (date_failure ("API error: " +:+ msg))
    | Response status_code data =>
        if (status_code =? 200)%Z then
          match data with
          | NoData => ret (date_failure "API call failed")
          | Json date_result => ret date_result
          | FencedJson date_result => ret date_result
          | Unparseable => ret (date_failure "Could not parse LLM response")
          end
        else ret (date_failure "API call failed")
    end.

Definition validate_date_range (self : PDFVendorMatcher) (w : world)
    (pdf_text : string) (vendor_name : pyval) : M pyval :=
  entry <- lift (registry_lookup self vendor_name) ;;
  match entry with
  | None => ret (date_failure "Vendor not found in database")
  | Some vendor_info =>
      let contract_start := record_get vendor_info "contract_start" in
      let contract_end := record_get vendor_info "contract_end" in
      if negb (scalar_truthy contract_start) || negb (scalar_truthy contract_end)
         || isna contract_start || isna contract_end
      then
        ret (PDict (dict_of
          [("date_valid", PNone);
           ("reason", PStr "No contract date range in database for this vendor")]))
      else _validate_dates_with_llm self w pdf_text contract_start contract_end
  end.

(** ** Rate checker *)

Definition rate_failure (reason : string) : pydict :=
  dict_of [("rate_valid", PFalse); ("reason", PStr reason)].

(** The message of the [TypeError] that [v[key] = x] raises when [v] is
    not a dictionary. *)
Definition setitem_error (v : pyval) : string :=
  let no_assign t := "'" +:+ t +:+ "' object does not support item assignment" in
  match v with
  | PList _ => "list indices must be integers or slices, not str"
  | PDict _ => EmptyString
  | PScalar SNone => no_assign "NoneType"
  | PScalar (SBool _) => no_assign "bool"
  | PScalar (SInt _) => no_assign "int"
  | PScalar (SFloat _) | PScalar SNaN => no_assign "float"
  | PScalar (SStr _) => no_assign "str"
  | PScalar SNaT => no_assign "NaTType"
  | PScalar (SDate _ _ _) => no_assign "Timestamp"
  end.

(** The three keys the checker adds to the decoded answer. *)
Definition annotate (rate_result : pyval) (expected_rate_type expected_amount : scalar)
    (min_amount max_amount : num) : pydict :=
  match rate_result with
  | PDict d =>
      <["tolerance_range" :=
          PStr ("$" +:+ fmt_2f min_amount +:+ " - $" +:+ fmt_2f max_amount)]>
      (<["expected_type" := PScalar expected_rate_type]>
      (<["expected_amount" := PScalar expected_amount]> d))
  | _ => rate_failure ("API error: " +:+ setitem_error rate_result)
  end.

Definition _validate_rate_with_llm (self : PDFVendorMatcher) (w : world)
    (pdf_text : string) (expected_rate_type expected_amount : scalar) : M pydict :=
  if negb (configured self) then
    ret (rate_failure "API not configured for rate validation")
  else
    amount <- lift (as_number expected_amount) ;;
    let tolerance := num_mul amount (Fin (5 # 100)) in
    let min_amount := num_sub amount tolerance in
    let max_amount := num_add amount tolerance in
    reply <- request w (RateQuery pdf_text expected_rate_type
                                  amount min_amount max_amount) ;;
    match reply with
    | CallRaised msg => ret (rate_failure ("API error: " +:+ msg))
    | Response status_code data =>
        if (status_code =? 200)%Z then
          match data with
          | NoData => ret (rate_failure "API call failed")
          | Json rate_result | FencedJson rate_result =>
              ret (annotate rate_result expected_rate_type expected_amount
                            min_amount max_amount)
          | Unparseable => ret (rate_failure "Could not parse LLM response")
          end
        else ret (rate_failure "API call failed")
    end.

(** [rate_type.lower()]: only a string has the method. *)
Definition str_lower (c : scalar) : outcome string :=
  match c with
  | SStr s => Ret (Text.lower s)
  | _ => Raise AttributeError
  end.

Definition variable_rate_types : list string := ["variable"; "as needed"].

Definition validate_rate (self : PDFVendorMatcher) (w : world)
    (pdf_text : string) (vendor_name : pyval) : M pydict :=
  entry <- lift (registry_lookup self vendor_name) ;;
  match entry with
  | None => ret (rate_failure "Vendor not found in database")
  | Some vendor_info =>
      let rate_type := record_get vendor_info "rate_type" in
      let rate_amount := record_get vendor_info "rate_amount" in
      if negb (scalar_truthy rate_type) && negb (scalar_truthy rate_amount) then
        ret (dict_of [("rate_valid", PNone);
                      ("reason", PStr "No rate data in database for this vendor")])
      else
        is_variable <-
          lift (if scalar_truthy rate_type
                then obind (str_lower rate_type)
                       (fun t => Ret (Text.mem t variable_rate_types))
                else Ret false) ;;
        if is_variable then
          ret (dict_of
            [("rate_valid", PTrue);
             ("rate_type", PScalar rate_type);
             ("reason", PStr ("Rate type is '" +:+ py_str rate_type
                              +:+ "' - automatic pass"));
             ("is_variable", PTrue)])
        else if scalar_truthy rate_type && scalar_truthy rate_amount then
          _validate_rate_with_llm self w pdf_text rate_type rate_amount
        else if scalar_truthy rate_amount && negb (scalar_truthy rate_type) then
          _validate_rate_with_llm self w pdf_text (SStr "unknown") rate_amount
        else
          ret (dict_of
            [("rate_valid", PNone);
             ("reason", PStr ("Incomplete rate data - type: " +:+ py_str rate_type
                              +:+ ", amount: " +:+ py_str rate_amount))])
  end.

(** ** Routing decision *)

Definition ROLE_DIRECTOR : string := "Director/Manager".
Definition ROLE_ADMIN : string := "Admin/Main Contact".
Definition ROLE_UNKNOWN : string := "Unknown".

(** [c and str(c).lower() not in ['nan', '']] *)
Definition usable (c : scalar) : bool :=
  scalar_truthy c && negb (Text.mem (Text.lower (py_str c)) ["nan"; EmptyString]).

Definition contact (name : pyval) (role reason : string) : pydict :=
  dict_of [("name", name); ("role", PStr role); ("reason", PStr reason)].

(** The list [reasons] as the four [if]s fill it. *)
Definition routing_reasons (po_failed date_failed rate_failed is_variable_rate : bool)
  : list string :=
  ((if po_failed then ["PO validation failed"] else []) ++
   (if date_failed then ["date validation failed"] else []) ++
   (if rate_failed then ["rate validation failed"] else []) ++
   (if is_variable_rate then ["variable rate type"] else []))%list.

Definition _determine_contact_person (self : PDFVendorMatcher) (vendor_name : pyval)
    (po_validation date_validation rate_validation : pydict) : outcome pydict :=
  obind (registry_lookup self vendor_name) (fun entry =>
  match entry with
  | None =>
      Ret (contact (PStr "Unknown") ROLE_UNKNOWN "Vendor not found in database")
  | Some vendor_info =>
      let po_failed := is_False (dict_get po_validation "po_valid") in
      let date_failed := is_False (dict_get date_validation "date_valid") in
      let rate_failed := is_False (dict_get rate_validation "rate_valid") in
      let is_variable_rate :=
        truthy (dict_get_or rate_validation "is_variable" PFalse) in
      let director :=
        py_or scalar_truthy (record_get vendor_info "director")
                            (record_get vendor_info "Asst Director / Director") in
      if negb (po_failed || date_failed || rate_failed || is_variable_rate)
         && usable director
      then
        Ret (contact (PScalar director) ROLE_DIRECTOR
                     "All validations passed and rate is fixed")
      else
        let main_contact :=
          py_or scalar_truthy (record_get vendor_info "Main Contact")
                              (record_get vendor_info "main_contact") in
        let admin :=
          py_or scalar_truthy (record_get vendor_info "Admin")
                              (record_get vendor_info "admin") in
        let chosen := if usable main_contact then main_contact else admin in
        if usable chosen then
          let reasons :=
            routing_reasons po_failed date_failed rate_failed is_variable_rate in
          let reason :=
            match reasons with
            | [] => "Default admin contact"
            | _ :: _ => "Issue requires admin attention: " +:+ Text.join ", " reasons
            end in
          Ret (contact (PScalar chosen) ROLE_ADMIN reason)
        else
          Ret (contact (PStr "Unknown") ROLE_UNKNOWN "No contact information available")
  end).

(** ** Orchestrator *)

(** [k in v] *)
Definition py_in (k : string) (v : pyval) : outcome bool :=
  match v with
  | PDict d => Ret (bool_decide (is_Some (d !! k)))
  | PList l =>
      Ret (existsb (fun x => match x with
                             | PScalar (SStr s) => String.eqb s k
                             | _ => false
                             end) l)
  | PScalar (SStr s) => Ret (Text.contains k s)
  | PScalar _ => Raise TypeError
  end.

(** [v[k]] *)
Definition py_getitem (v : pyval) (k : string) : outcome pyval :=
  match v with
  | PDict d => match d !! k with Some x => Ret x | None => Raise KeyError end
  | _ => Raise TypeError
  end.

(** [v.get]: the value must be a dictionary. *)
Definition as_dict (v : pyval) : outcome pydict :=
  match v with
  | PDict d => Ret d
  | _ => Raise AttributeError
  end.

Definition extraction_error : pydict :=
  dict_of [("error", PStr "Could not extract text from PDF")].

Definition configuration_error : pydict :=
  dict_of [("error", PStr "API not configured")].

Definition no_match_result : pydict :=
  dict_of [("vendor", PNone); ("po_valid", PNone); ("date_valid", PNone);
           ("method", PStr "amplify_api")].

(** [not api_response or 'vendor' not in api_response
     or not api_response['vendor']] *)
Definition no_match (api_response : pyval) : outcome bool :=
  if negb (truthy api_response) then Ret true
  else
    obind (py_in "vendor" api_response) (fun present =>
    if negb present then Ret true
    else obind (py_getitem api_response "vendor") (fun v => Ret (negb (truthy v)))).

Definition process_pdf (self : PDFVendorMatcher) (w : world) (pdf_path : string)
  : M pydict :=
  let pdf_text := extract_pdf_text w pdf_path in
  if Text.is_empty pdf_text then ret extraction_error
  else if negb (configured self) then ret configuration_error
  else
    api_response <- query_amplify_api self w pdf_text ;;
    unmatched <- lift (no_match api_response) ;;
    if unmatched then ret no_match_result
    else
      vendor_name <- lift (py_getitem api_response "vendor") ;;
      po_validation <- lift (validate_po_number self pdf_text vendor_name) ;;
      date_validation <- validate_date_range self w pdf_text vendor_name ;;
      rate_validation <- validate_rate self w pdf_text vendor_name ;;
      date_dict <- lift (as_dict date_validation) ;;
      contact_person <- lift (_determine_contact_person self vendor_name
                                po_validation date_dict rate_validation) ;;
      ret (dict_of
        [("vendor", vendor_name);
         ("method", PStr "amplify_api");
         ("po_valid", dict_get po_validation "po_valid");
         ("po_reason", dict_get po_validation "reason");
         ("expected_po", dict_get po_validation "expected_po");
         ("date_valid", dict_get date_dict "date_valid");
         ("date_reason", dict_get date_dict "reason");
         ("dates_found", dict_get_or date_dict "dates_found" (PList []));
         ("valid_dates", dict_get_or date_dict "valid_dates" (PList []));
         ("rate_valid", dict_get rate_validation "rate_valid");
         ("rate_reason", dict_get rate_validation "reason");
         ("rate_type", dict_get rate_validation "rate_type");
         ("expected_amount", dict_get rate_validation "expected_amount");
         ("amounts_found", dict_get_or rate_validation "amounts_found" (PList []));
         ("is_variable_rate", dict_get_or rate_validation "is_variable" PFalse);
         ("contact_person", dict_get contact_person "name");
         ("contact_role", dict_get contact_person "role");
         ("contact_reason", dict_get contact_person "reason")]).

(** * The rest of the matcher and its callers *)

(** ** Upload filter of the web front ends ([app.py], [standalone_app.py]) *)

Definition ALLOWED_EXTENSIONS : list string := ["pdf"].

Definition is_dot (c : ascii) : bool := Ascii.eqb c "."%char.

(** [s.rsplit('.', 1)[1]]: what follows the last dot, when there is one. *)
Fixpoint after_last_dot (s : string) : option string :=
  match s with
  | EmptyString => None
  | String c s' =>
      match after_last_dot s' with
      | Some ext => Some ext
      | None => if is_dot c then Some s' else None
      end
  end.

Definition allowed_file (filename : string) : bool :=
  Text.contains "." filename
  && match after_last_dot filename with
     | Some ext => Text.mem (Text.lower ext) ALLOWED_EXTENSIONS
     | None => false
     end.

(** ** Text extractor *)

Module Extractor.

(** What one PDF library delivered: the text of the pages it got through
    ([None] or empty text for a page without text), and whether it raised
    before it was done. *)
Record library_run := {
  pages_read : list (option string);
  raised : bool
}.

Definition newline : ascii := ascii_of_nat 10.

(** The loop [if page_text: text += page_text + "\n"]. *)
Fixpoint page_texts (pages : list (option string)) : string :=
  match pages with
  | [] => EmptyString
  | Some page_text :: rest =>
      if Text.is_empty page_text then page_texts rest
      else page_text +:+ String newline EmptyString +:+ page_texts rest
  | None :: rest => page_texts rest
  end.

(** The text before the clean-up. PyPDF2 keeps what it had appended when it
    raises; pdfplumber ([None] when it is not installed) replaces that text
    only when it finishes and its text is strictly longer. *)
Definition raw_text (pypdf2 : library_run) (pdfplumber : option library_run)
  : string :=
  let text := page_texts (pages_read pypdf2) in
  match pdfplumber with
  | None => text
  | Some run =>
      if raised run then text
      else
        let plumber_text := page_texts (pages_read run) in
        if (String.length text <? String.length plumber_text)%nat
        then plumber_text else text
  end.

(** [s.split(sep)] for a one-character separator. *)
Fixpoint split_on (sep : ascii) (s : string) : list string :=
  match s with
  | EmptyString => [EmptyString]
  | String c s' =>
      if Ascii.eqb c sep then EmptyString :: split_on sep s'
      else match split_on sep s' with
           | piece :: pieces => String c piece :: pieces
           | [] => [String c EmptyString]
           end
  end.

Definition starts_word (s : string) : bool :=
  match s with
  | EmptyString => false
  | String c _ => negb (Text.is_space c)
  end.

(** [s.split()]: the maximal runs without white space. *)
Fixpoint words (s : string) : list string :=
  match s with
  | EmptyString => []
  | String c s' =>
      if Text.is_space c then words s'
      else if starts_word s' then
        match words s' with
        | w :: ws => String c w :: ws
        | [] => [String c EmptyString]
        end
      else String c EmptyString :: words s'
  end.

(** [' '.join(line.split())] *)
Definition clean_line (line : string) : string := Text.join " " (words line).

(** The block under [if text:]. *)
Definition clean_text (text : string) : string :=
  if Text.is_empty text then text
  else
    Text.join (String newline EmptyString)
      (filter (fun cleaned_line => negb (Text.is_empty cleaned_line))
              (map clean_line (split_on newline text))).

Definition extract_pdf_text (pypdf2 : library_run)
    (pdfplumber : option library_run) : string :=
  Text.strip (clean_text (raw_text pypdf2 pdfplumber)).

End Extractor.

(** ** Registry loader: the agreements sheet and the fallback *)

(** A sheet as pandas reads it: the column names and the rows; a cell that
    a row is too short for reads as NaN. *)
Record DataFrame := {
  columns : list string;
  frame_rows : list (list scalar)
}.

Fixpoint column_index (col : string) (cols : list string) : option nat :=
  match cols with
  | [] => None
  | c :: rest =>
      if String.eqb c col then Some 0%nat
      else option_map S (column_index col rest)
  end.

(** [row.get(col)]: [None] when the sheet has no such column. *)
Definition row_get (df : DataFrame) (row : list scalar) (col : string) : scalar :=
  match column_index col (columns df) with
  | Some i => default SNaN (row !! i)
  | None => SNone
  end.

(** [df[col].dropna().astype(str).unique()] *)
Definition column_names (df : DataFrame) (col : string) : list string :=
  remove_dups
    (map py_str (filter (fun c => notna c = true)
                        (map (fun row => row_get df row col) (frame_rows df)))).

(** [[v.strip() for v in vendors if v.strip() and v.strip().lower() != 'nan']];
    the order in which Python walks the set is not modelled, the
    properties speak of membership only. *)
Definition clean_names (vendors : list string) : list string :=
  map Text.strip
    (filter (fun v => negb (Text.is_empty (Text.strip v))
                      && negb (String.eqb (Text.lower (Text.strip v)) "nan") = true)
            vendors).

Definition with_vendor_list (self : PDFVendorMatcher) (l : list string)
  : PDFVendorMatcher :=
  {| vendor_list := l;
     vendor_data := vendor_data self;
     amplify_api_url := amplify_api_url self;
     amplify_api_key := amplify_api_key self |}.

Definition names_vendor_column (col : string) : bool :=
  let col_lower := Text.lower col in
  Text.contains "supplier" col_lower || Text.contains "vendor" col_lower.

(** [_load_vendor_list_fallback]; [first_sheet] is [None] when reading the
    workbook raised. *)
Definition _load_vendor_list_fallback (self : PDFVendorMatcher)
    (first_sheet : option DataFrame) : PDFVendorMatcher :=
  match first_sheet with
  | None => with_vendor_list self []
  | Some df =>
      let vendor_column :=
        match find names_vendor_column (columns df) with
        | Some col => Some col
        | None => head (columns df)
        end in
      match vendor_column with
      | None => with_vendor_list self []
      | Some col => with_vendor_list self (clean_names (column_names df col))
      end
  end.

(** The dictionary stored for one row of the agreements sheet. *)
Definition agreement_record (df : DataFrame) (row : list scalar) : record :=
  list_to_map
    [("contract_start", row_get df row "Contract Start Date");
     ("contract_end", row_get df row "Contract End Date");
     ("current_po", row_get df row "Current PO");
     ("po_start", row_get df row "PO Start");
     ("po_end", row_get df row "PO End")].

(** One iteration of [for _, row in df.iterrows()]. *)
Definition agreement_row (df : DataFrame) (vd : gmap string record)
    (row : list scalar) : gmap string record :=
  let vendor_name := Text.strip (py_str (row_get df row "Vendor")) in
  if negb (Text.is_empty vendor_name)
     && negb (String.eqb (Text.lower vendor_name) "nan")
  then <[vendor_name := agreement_record df row]> vd
  else vd.

(** [_load_vendor_data]; [agreements] is [None] when reading the sheet
    "Service Agreements" raised. *)
Definition _load_vendor_data (self : PDFVendorMatcher)
    (agreements first_sheet : option DataFrame) : PDFVendorMatcher :=
  match agreements with
  | None => _load_vendor_list_fallback self first_sheet
  | Some df =>
      if Text.mem "Vendor" (columns df) then
        {| vendor_list := clean_names (column_names df "Vendor");
           vendor_data := fold_left (agreement_row df) (frame_rows df)
                                    (vendor_data self);
           amplify_api_url := amplify_api_url self;
           amplify_api_key := amplify_api_key self |}
      else _load_vendor_list_fallback self first_sheet
  end.

(** The workbook as the three reads of it come out. *)
Record workbook := {
  service_agreements : option DataFrame;
  first_sheet_read : option DataFrame;
  vendors_rates : option (list (list scalar))
}.

(** [PDFVendorMatcher.__init__] *)
Definition __init__ (wb : workbook) (api_url api_key : option string)
  : PDFVendorMatcher :=
  let self := {| vendor_list := []; vendor_data := ∅;
                 amplify_api_url := api_url; amplify_api_key := api_key |} in
  _load_rate_data
    (_load_vendor_data self (service_agreements wb) (first_sheet_read wb))
    (vendors_rates wb).

(** * Vocabulary of the properties *)

(** ** Cells *)


(** ** A registry and documents to run the pipeline on *)

Module Scenario.

Definition mid_south : string := "Mid South Instrument Services Inc.".
Definition budd : string := "The Budd Group".
Definition bouchard : string := "John Bouchard & Sons".

Definition mid_south_record : record :=
  list_to_map
    [("contract_start", SDate 2025 1 1); ("contract_end", SDate 2025 12 31);
     ("current_po", SStr "P26003063");
     ("rate_type", SStr "monthly"); ("rate_amount", SFloat 500);
     ("director", SStr "Dana Director");
     ("Main Contact", SStr "Mia Main"); ("Admin", SStr "Al Admin")].

(** No PO, no contract dates and no rate on file; a director is. *)
Definition budd_record : record :=
  list_to_map [("current_po", SNaN); ("director", SStr "Dana Director")].

(** A contract start without a contract end, and a rate as needed. *)
Definition bouchard_record : record :=
  list_to_map
    [("contract_start", SDate 2025 1 1); ("contract_end", SNaT);
     ("current_po", SStr "P25063542");
     ("rate_type", SStr "as needed");
     ("Admin", SStr "Al Admin")].

Definition matcher : PDFVendorMatcher := {|
  vendor_list := [mid_south; budd; bouchard];
  vendor_data :=
    <[mid_south := mid_south_record]>
    (<[budd := budd_record]> (<[bouchard := bouchard_record]> ∅));
  amplify_api_url := Some "https://amplify.example/chat";
  amplify_api_key := Some "key"
|}.

Definition invoice_text : string :=
  "Mid-South Instrument Service PO: P26003063 Date: 06/15/2025 Total: $600.00".

Definition answer (fields : list (string * pyval)) : api_reply :=
  Response 200 (Json (PDict (dict_of fields))).

(** The service names [vendor] and calls every date and amount fine. *)
Definition agreeable (vendor : string) (text : string) : world := {|
  extract_pdf_text := fun _ => text;
  post := fun c =>
    match c with
    | VendorQuery _ _ => answer [("vendor", PStr vendor)]
    | DateQuery _ _ _ =>
        answer [("dates_found", PList [PStr "2025-06-15"]);
                ("date_valid", PTrue);
                ("valid_dates", PList [PStr "2025-06-15"]);
                ("reason", PStr "invoice date inside the contract period")]
    | RateQuery _ _ _ _ _ =>
        answer [("amounts_found", PList [PScalar (SFloat 600)]);
                ("rate_valid", PTrue);
                ("matching_amounts", PList [PScalar (SFloat 600)]);
                ("reason", PStr "total matches the expected rate")]
    end
|}.

(** Every request fails in transit. *)
Definition unreachable (text : string) : world := {|
  extract_pdf_text := fun _ => text;
  post := fun _ => CallRaised "connection timed out"
|}.


End Scenario.

(** ** Reasons and outcomes the properties name *)

Definition VENDOR_NOT_FOUND : string := "Vendor not found in database".

(** ** Resolver failures in the final result *)



(** ** Date-range checker: the inapplicable outcome *)


(** ** Rate checker: the tolerance *)



(** ** Registry loader: first cells and a sparse sheet *)


(** The trimmed text of the first cell is taken as a vendor name. *)
Definition names_vendor (c0 : scalar) (vendor_name : string) : Prop :=
  isna c0 = false
  /\ vendor_name = Text.strip (py_str c0)
  /\ vendor_name <> EmptyString
  /\ vendor_name <> "nan"
  /\ (3 < String.length vendor_name)%nat.


Definition empty_matcher : PDFVendorMatcher := {|
  vendor_list := [];
  vendor_data := ∅;
  amplify_api_url := None;
  amplify_api_key := None
|}.

(** ** Vocabulary of the further properties *)

(** Nothing but white space. *)
Fixpoint all_space (s : string) : bool :=
  match s with
  | EmptyString => true
  | String c s' => Text.is_space c && all_space s'
  end.

(** White space is in normal form from here on: every white space
    character is a blank or a newline, stands alone between two characters
    that are not white space, and the text ends in a character that is
    not white space. [after_space] tells whether the character before
    was white space (or the text starts here). *)
Fixpoint normal_from (after_space : bool) (s : string) : bool :=
  match s with
  | EmptyString => negb after_space
  | String c s' =>
      if Text.is_space c then
        negb after_space
        && (Ascii.eqb c " " || Ascii.eqb c Extractor.newline)
        && normal_from true s'
      else normal_from false s'
  end.

(** Empty, or non-empty text with its white space in normal form. *)
Definition normalised (s : string) : bool :=
  Text.is_empty s || normal_from true s.

(** The value a reply decodes to, when it is a 200 response whose data
    parse as JSON, directly or inside a fenced block. *)
Definition decoded (reply : api_reply) : option pyval :=
  match reply with
  | Response status_code (Json v) | Response status_code (FencedJson v) =>
      if (status_code =? 200)%Z then Some v else None
  | _ => None
  end.

(** The rate fields of a record are what the rate sheet loader writes: a
    keyword of the vocabulary, a number that is not NaN. *)
Definition rate_fields_ok (entry : record) : Prop :=
  (forall v, entry !! "rate_type" = Some v ->
     exists keyword, v = SStr keyword /\ Text.mem keyword rate_vocabulary = true)
  /\ (forall v, entry !! "rate_amount" = Some v ->
        is_int_or_float v = true /\ notna v = true).

(** A key that the rate sheet loader does not write. *)
Definition not_a_rate_key (key : string) : Prop :=
  key <> "rate_amount" /\ key <> "rate_type".

(** The rate type recorded for a vendor makes the rate variable. *)
Definition variable_type (rate_type : scalar) : bool :=
  match rate_type with
  | SStr s => Text.mem (Text.lower s) variable_rate_types
  | _ => false
  end.

(** What one row of the rate sheet can do to the record of the vendor it
    names: set the amount, set the keyword, or leave either as it was. *)
Definition update_rate (amount : option scalar) (keyword : option string)
    (old : record) : record :=
  let with_amount :=
    match amount with
    | Some c => <["rate_amount" := c]> old
    | None => old
    end in
  match keyword with
  | Some kw => <["rate_type" := SStr kw]> with_amount
  | None => with_amount
  end.

(** The keys that the two loaders write into a record. *)
Definition loader_keys : list string :=
  ["contract_start"; "contract_end"; "current_po"; "po_start"; "po_end";
   "rate_amount"; "rate_type"].

Definition only_loader_keys (entry : record) : Prop :=
  forall key, ~ In key loader_keys -> entry !! key = None.


(** A two-column rate sheet: every row is too short for a rate amount. *)
Definition narrow_sheet : list (list scalar) :=
  [ [SStr "Acme Cleaning"; SStr "monthly"];
    [SStr "Budd Services"; SStr "annual"] ].

Definition agreements_sheet : DataFrame := {|
  columns := ["Vendor"; "Admin"; "Contract Start Date"; "Contract End Date";
              "Current PO"];
  frame_rows :=
    [ [SStr " Acme Cleaning "; SStr "Al Admin"; SDate 2025 1 1;
       SDate 2025 12 31; SStr "P26003063"];
      [SNaN; SNaN; SNaT; SNaT; SNaN];
      [SStr "Budd Services"; SNaN; SNaT; SNaT; SNaN] ]
|}.

(** An agreements sheet that lists one vendor twice; the second row has
    no purchase order. *)
Definition renewed_agreements_sheet : DataFrame := {|
  columns := ["Vendor"; "Contract Start Date"; "Contract End Date";
              "Current PO"];
  frame_rows :=
    [ [SStr "Acme Cleaning"; SDate 2024 1 1; SDate 2024 12 31;
       SStr "P25001111"];
      [SStr "Acme Cleaning "; SDate 2025 1 1; SDate 2025 12 31; SNaN];
      [SStr "Budd Services"; SNaT; SNaT; SNaN] ]
|}.

Definition rates_sheet : list (list scalar) :=
  [ [SStr "Acme Cleaning"; SStr "Monthly"; SFloat 500];
    [SNaN; SStr "annual"; SFloat 900];
    [SStr "Budd Services"; SNaN; SNaN; SStr "As Needed"] ].

Definition sample_workbook : workbook := {|
  service_agreements := Some agreements_sheet;
  first_sheet_read := Some agreements_sheet;
  vendors_rates := Some rates_sheet
|}.

(** * Properties *)

(** ** The primitives on examples *)

Example py_str_int : py_str (SInt (-42)) = "-42".
Proof. reflexivity. Qed.
Example py_str_float : py_str (SFloat (2021 # 4)) = "505.25".
Proof. reflexivity. Qed.
Example py_str_float_int : py_str (SFloat 500) = "500.0".
Proof. reflexivity. Qed.
Example py_str_date : py_str (SDate 2025 1 1) = "2025-01-01 00:00:00".
Proof. reflexivity. Qed.
Example strip_example : Text.strip "  P26003063 " = "P26003063".
Proof. reflexivity. Qed.
Example lower_example : Text.lower "As Needed" = "as needed".
Proof. reflexivity. Qed.
Example contains_example : Text.contains "p26" "po: p26003063" = true.
Proof. reflexivity. Qed.
Example join_example : Text.join ", " ["a"; "b"; "c"] = "a, b, c".
Proof. reflexivity. Qed.

Example fmt_2f_example : fmt_2f (Fin (1234567 # 1000)) = "1,234.57".
Proof. reflexivity. Qed.
Example fmt_2f_small : fmt_2f (Fin 475) = "475.00".
Proof. reflexivity. Qed.

(** ** Facts about text *)

Section TextFacts.

Lemma append_cons (c : ascii) (a b : string) :
  String c a +:+ b = String c (a +:+ b).
Proof. reflexivity. Qed.

Lemma append_nil_l (s : string) : EmptyString +:+ s = s.
Proof. reflexivity. Qed.


Lemma prefix_iff (p s : string) :
  String.prefix p s = true <-> exists rest, s = p +:+ rest.
Proof.
  revert s. induction p as [|c p IH]; intros s.
  - split; [intros _; by exists s | by destruct s].
  - destruct s as [|c' s]; simpl.
    + split; [done | intros [rest Hrest]; discriminate].
    + destruct (ascii_dec c c') as [->|Hne].
      * rewrite IH. split; intros [rest Hrest]; exists rest.
        -- by rewrite append_cons, Hrest.
        -- rewrite append_cons in Hrest. by injection Hrest.
      * split; [done|]. intros [rest Hrest]. rewrite append_cons in Hrest.
        injection Hrest. congruence.
Qed.

Lemma contains_nil (p : string) :
  Text.contains p EmptyString = String.prefix p EmptyString.
Proof. apply orb_false_r. Qed.

Lemma contains_cons (p : string) (c : ascii) (s : string) :
  Text.contains p (String c s)
  = String.prefix p (String c s) || Text.contains p s.
Proof. reflexivity. Qed.

(** [Text.contains] is containment as a contiguous run. *)
Lemma contains_iff (p s : string) :
  Text.contains p s = true <-> exists before after, s = before +:+ p +:+ after.
Proof.
  induction s as [|c s IH].
  - rewrite contains_nil, prefix_iff. split.
    + intros [rest Hrest]. by exists EmptyString, rest.
    + intros (before & after & Heq). destruct before; [|discriminate].
      by exists after.
  - rewrite contains_cons, orb_true_iff, prefix_iff, IH. split.
    + intros [[rest Hrest] | (before & after & Heq)].
      * by exists EmptyString, rest.
      * exists (String c before), after. by rewrite append_cons, Heq.
    + intros (before & after & Heq). destruct before as [|c' before].
      * left. by exists after.
      * right. exists before, after. rewrite append_cons in Heq. by injection Heq.
Qed.


End TextFacts.

(** ** Facts about cells *)



(** ** Orchestrator: extraction failure *)

(** C9. When the extracted text of a document is empty, [process_pdf]
    returns the error object [{"error": "Could not extract text from PDF"}]
    and nothing downstream runs: no request is sent to the service, neither
    for vendor resolution nor for a checker, whatever the registry and the
    service are. *)
Theorem process_pdf_empty_text_short_circuits
    (self : PDFVendorMatcher) (w : world) (pdf_path : string) :
  extract_pdf_text w pdf_path = EmptyString ->
  process_pdf self w pdf_path = ([], Ret extraction_error)
  /\ extraction_error !! "error" = Some (PStr "Could not extract text from PDF")
  /\ extraction_error !! "vendor" = None.
Proof.
  intros Hempty. unfold process_pdf. rewrite Hempty. simpl. by split.
Qed.

Lemma process_pdf_empty_text_witness :
  extract_pdf_text (Scenario.agreeable Scenario.mid_south EmptyString) "scan.pdf"
    = EmptyString
  /\ process_pdf Scenario.matcher
       (Scenario.agreeable Scenario.mid_south EmptyString) "scan.pdf"
     = ([], Ret extraction_error).
Proof.
  split; [reflexivity|].
  apply (process_pdf_empty_text_short_circuits Scenario.matcher
           (Scenario.agreeable Scenario.mid_south EmptyString) "scan.pdf").
  reflexivity.
Defined.

(** ** PO checker *)



Example po_found_in_invoice :
  validate_po_number Scenario.matcher Scenario.invoice_text
    (PStr Scenario.mid_south)
  = Ret (dict_of [("po_valid", PTrue); ("expected_po", PStr "P26003063");
                  ("reason", PStr "PO number found in PDF")]).
Proof. reflexivity. Qed.

(** ** Rate checker: variable rates *)

(** C5. For a vendor of the registry whose recorded rate type is
    "variable" or "as needed" (in any letter case), the rate check returns
    [rate_valid = True] with [is_variable = True] for every document text
    and every behaviour of the service, and sends no request. *)
Theorem variable_rate_passes_automatically
    (self : PDFVendorMatcher) (w : world) (name : string)
    (vendor_info : record) (rate_type : string) (pdf_text : string) :
  vendor_data self !! name = Some vendor_info ->
  vendor_info !! "rate_type" = Some (SStr rate_type) ->
  Text.lower rate_type = "variable" \/ Text.lower rate_type = "as needed" ->
  exists r,
    validate_rate self w pdf_text (PStr name) = ([], Ret r)
    /\ dict_get r "rate_valid" = PTrue
    /\ dict_get r "is_variable" = PTrue
    /\ dict_get r "rate_type" = PStr rate_type.
Proof.
  intros Hentry Htype Hvariable.
  unfold validate_rate. simpl. rewrite Hentry. simpl.
  unfold record_get at 1 2 3 4 5. rewrite Htype. simpl.
  assert (Text.is_empty rate_type = false) as Hne.
  { destruct rate_type; [|done]. destruct Hvariable; discriminate. }
  rewrite Hne. simpl.
  destruct Hvariable as [Hlow | Hlow]; rewrite Hlow; simpl;
    (eexists; split; [reflexivity|]; by repeat split).
Qed.

Lemma variable_rate_witness :
  (vendor_data Scenario.matcher !! Scenario.bouchard
     = Some Scenario.bouchard_record
   /\ Scenario.bouchard_record !! "rate_type" = Some (SStr "as needed")
   /\ (Text.lower "as needed" = "variable"
       \/ Text.lower "as needed" = "as needed"))
  /\ exists r,
       validate_rate Scenario.matcher (Scenario.unreachable "any text")
         "any text" (PStr Scenario.bouchard) = ([], Ret r)
       /\ dict_get r "rate_valid" = PTrue
       /\ dict_get r "is_variable" = PTrue.
Proof.
  split; [split; [reflexivity | split; [reflexivity | right; reflexivity]]|].
  destruct (variable_rate_passes_automatically Scenario.matcher
              (Scenario.unreachable "any text") Scenario.bouchard
              Scenario.bouchard_record "as needed" "any text"
              eq_refl eq_refl (or_intror eq_refl))
    as (r & Hr & Hvalid & Hvar & _).
  exists r. split; [exact Hr | split; [exact Hvalid | exact Hvar]].
Defined.

(** ** Stepping through the orchestrator *)

Lemma result_bind {A B} (m : M A) (k : A -> M B) :
  result (bind m k)
  = match result m with Ret a => result (k a) | Raise e => Raise e end.
Proof.
  destruct m as [l1 [a|e]]; simpl; [|done]. by destruct (k a).
Qed.

Lemma calls_bind {A B} (m : M A) (k : A -> M B) :
  calls (bind m k)
  = match result m with
    | Ret a => (calls m ++ calls (k a))%list
    | Raise _ => calls m
    end.
Proof.
  destruct m as [l1 [a|e]]; simpl; [|done]. by destruct (k a).
Qed.

Lemma result_lift {A} (o : outcome A) : result (lift o) = o.
Proof. done. Qed.

Lemma calls_lift {A} (o : outcome A) : calls (lift o) = [].
Proof. done. Qed.

Lemma run_eq {A} (m : M A) : m = (calls m, result m).
Proof. by destruct m. Qed.

Lemma registry_lookup_name (self : PDFVendorMatcher) (name : string) :
  registry_lookup self (PStr name) = Ret (vendor_data self !! name).
Proof. done. Qed.

Lemma dict_nonempty (d : pydict) (k : string) (v : pyval) :
  d !! k = Some v -> truthy (PDict d) = true.
Proof.
  intros Hk. simpl. apply negb_true_iff, Nat.eqb_neq.
  intros Hsize. apply map_size_empty_iff in Hsize. by rewrite Hsize in Hk.
Qed.

(** The answer names a vendor: the orchestrator goes on to the checkers. *)
Lemma no_match_named (answer : pydict) (name : string) :
  answer !! "vendor" = Some (PStr name) ->
  name <> EmptyString ->
  no_match (PDict answer) = Ret false.
Proof.
  intros Hvendor Hname. unfold no_match.
  rewrite (dict_nonempty _ _ _ Hvendor). simpl. rewrite Hvendor. simpl.
  by destruct name.
Qed.

(** What a run of [process_pdf] that returns has gone through. *)
Lemma process_pdf_inv (self : PDFVendorMatcher) (w : world) (pdf_path : string)
    (r : pydict) :
  result (process_pdf self w pdf_path) = Ret r ->
  r = extraction_error \/ r = configuration_error \/ r = no_match_result \/
  exists api_response vendor_name po_validation date_validation date_dict
         rate_validation contact_person,
    let pdf_text := extract_pdf_text w pdf_path in
    result (query_amplify_api self w pdf_text) = Ret api_response
    /\ no_match api_response = Ret false
    /\ py_getitem api_response "vendor" = Ret vendor_name
    /\ validate_po_number self pdf_text vendor_name = Ret po_validation
    /\ result (validate_date_range self w pdf_text vendor_name) = Ret date_validation
    /\ result (validate_rate self w pdf_text vendor_name) = Ret rate_validation
    /\ as_dict date_validation = Ret date_dict
    /\ _determine_contact_person self vendor_name po_validation date_dict
         rate_validation = Ret contact_person
    /\ dict_get r "vendor" = vendor_name
    /\ dict_get r "po_valid" = dict_get po_validation "po_valid"
    /\ dict_get r "date_valid" = dict_get date_dict "date_valid"
    /\ dict_get r "rate_valid" = dict_get rate_validation "rate_valid"
    /\ dict_get r "is_variable_rate"
       = dict_get_or rate_validation "is_variable" PFalse
    /\ dict_get r "contact_person" = dict_get contact_person "name"
    /\ dict_get r "contact_role" = dict_get contact_person "role"
    /\ dict_get r "contact_reason" = dict_get contact_person "reason".
Proof.
  unfold process_pdf.
  destruct (Text.is_empty (extract_pdf_text w pdf_path)).
  { intros [= <-]. by left. }
  destruct (configured self); simpl negb; cbv iota.
  2: { intros [= <-]. right. by left. }
  rewrite result_bind.
  destruct (result (query_amplify_api self w (extract_pdf_text w pdf_path)))
    as [api_response|e] eqn:Hquery; [|discriminate].
  rewrite result_bind, result_lift.
  destruct (no_match api_response) as [[|]|e] eqn:Hmatch; [| |discriminate].
  { intros [= <-]. right. right. by left. }
  rewrite result_bind, result_lift.
  destruct (py_getitem api_response "vendor") as [vendor_name|e] eqn:Hname;
    [|discriminate].
  rewrite result_bind, result_lift.
  destruct (validate_po_number self (extract_pdf_text w pdf_path) vendor_name)
    as [po_validation|e] eqn:Hpo; [|discriminate].
  rewrite result_bind.
  destruct (result (validate_date_range self w (extract_pdf_text w pdf_path)
                      vendor_name)) as [date_validation|e] eqn:Hdate;
    [|discriminate].
  rewrite result_bind.
  destruct (result (validate_rate self w (extract_pdf_text w pdf_path)
                      vendor_name)) as [rate_validation|e] eqn:Hrate;
    [|discriminate].
  rewrite result_bind, result_lift.
  destruct (as_dict date_validation) as [date_dict|e] eqn:Hdict; [|discriminate].
  rewrite result_bind, result_lift.
  destruct (_determine_contact_person self vendor_name po_validation date_dict
              rate_validation) as [contact_person|e] eqn:Hcontact;
    [|discriminate].
  intros [= <-]. right. right. right.
  exists api_response, vendor_name, po_validation, date_validation, date_dict,
    rate_validation, contact_person.
  cbv zeta. repeat split; assumption || reflexivity.
Qed.

(** ** A resolved name that the registry does not hold *)

(** C10. When the resolver answers with a vendor name that is not a key of
    the registry, nothing raises: each of the three checkers returns the
    outcome [False] with the reason "Vendor not found in database", without
    a request to the service; the routing gives name "Unknown", role
    "Unknown" and the same reason; and [process_pdf] returns a result that
    carries exactly these values. *)
Theorem unknown_vendor_is_reported_not_raised
    (self : PDFVendorMatcher) (w : world) (pdf_path name : string)
    (answer : pydict) :
  Text.is_empty (extract_pdf_text w pdf_path) = false ->
  configured self = true ->
  result (query_amplify_api self w (extract_pdf_text w pdf_path))
    = Ret (PDict answer) ->
  answer !! "vendor" = Some (PStr name) ->
  name <> EmptyString ->
  vendor_data self !! name = None ->
  let pdf_text := extract_pdf_text w pdf_path in
  validate_po_number self pdf_text (PStr name)
    = Ret (dict_of [("po_valid", PFalse); ("reason", PStr VENDOR_NOT_FOUND)])
  /\ validate_date_range self w pdf_text (PStr name)
     = ([], Ret (PDict (dict_of [("date_valid", PFalse);
                                 ("reason", PStr VENDOR_NOT_FOUND)])))
  /\ validate_rate self w pdf_text (PStr name)
     = ([], Ret (dict_of [("rate_valid", PFalse);
                          ("reason", PStr VENDOR_NOT_FOUND)]))
  /\ (forall po_validation date_validation rate_validation,
        _determine_contact_person self (PStr name) po_validation
          date_validation rate_validation
        = Ret (dict_of [("name", PStr "Unknown"); ("role", PStr "Unknown");
                        ("reason", PStr VENDOR_NOT_FOUND)]))
  /\ exists r,
       result (process_pdf self w pdf_path) = Ret r
       /\ dict_get r "vendor" = PStr name
       /\ dict_get r "po_valid" = PFalse
       /\ dict_get r "po_reason" = PStr VENDOR_NOT_FOUND
       /\ dict_get r "date_valid" = PFalse
       /\ dict_get r "date_reason" = PStr VENDOR_NOT_FOUND
       /\ dict_get r "rate_valid" = PFalse
       /\ dict_get r "rate_reason" = PStr VENDOR_NOT_FOUND
       /\ dict_get r "contact_person" = PStr "Unknown"
       /\ dict_get r "contact_role" = PStr "Unknown"
       /\ dict_get r "contact_reason" = PStr VENDOR_NOT_FOUND.
Proof.
  intros Htext Hconf Hquery Hvendor Hname Hmissing pdf_text.
  subst pdf_text. set (pdf_text := extract_pdf_text w pdf_path) in *.
  assert (validate_po_number self pdf_text (PStr name)
          = Ret (dict_of [("po_valid", PFalse);
                          ("reason", PStr VENDOR_NOT_FOUND)])) as Hpo.
  { unfold validate_po_number. rewrite registry_lookup_name, Hmissing. done. }
  assert (validate_date_range self w pdf_text (PStr name)
          = ([], Ret (PDict (dict_of [("date_valid", PFalse);
                                      ("reason", PStr VENDOR_NOT_FOUND)]))))
    as Hdate.
  { unfold validate_date_range. rewrite registry_lookup_name, Hmissing. done. }
  assert (validate_rate self w pdf_text (PStr name)
          = ([], Ret (dict_of [("rate_valid", PFalse);
                               ("reason", PStr VENDOR_NOT_FOUND)]))) as Hrate.
  { unfold validate_rate. rewrite registry_lookup_name, Hmissing. done. }
  assert (forall po_validation date_validation rate_validation,
            _determine_contact_person self (PStr name) po_validation
              date_validation rate_validation
            = Ret (dict_of [("name", PStr "Unknown"); ("role", PStr "Unknown");
                            ("reason", PStr VENDOR_NOT_FOUND)])) as Hroute.
  { intros. unfold _determine_contact_person.
    rewrite registry_lookup_name, Hmissing. done. }
  repeat (split; [assumption|]).
  unfold process_pdf. fold pdf_text. rewrite Htext, Hconf. simpl negb. cbv iota.
  rewrite result_bind, Hquery.
  rewrite result_bind, result_lift, (no_match_named _ _ Hvendor Hname).
  rewrite result_bind, result_lift. simpl py_getitem. rewrite Hvendor.
  rewrite result_bind, result_lift, Hpo.
  rewrite result_bind, Hdate. simpl result at 1. cbv iota.
  rewrite result_bind, Hrate. simpl result at 1. cbv iota.
  rewrite result_bind, result_lift. simpl as_dict. cbv iota.
  rewrite result_bind, result_lift, Hroute.
  eexists. split; [reflexivity|]. repeat split.
Qed.

Lemma unknown_vendor_witness :
  let w := Scenario.agreeable "Evoqua Water Technologies" Scenario.invoice_text in
  (Text.is_empty (extract_pdf_text w "evoqua.pdf") = false
   /\ configured Scenario.matcher = true
   /\ vendor_data Scenario.matcher !! "Evoqua Water Technologies" = None)
  /\ exists r,
       result (process_pdf Scenario.matcher w "evoqua.pdf") = Ret r
       /\ dict_get r "vendor" = PStr "Evoqua Water Technologies"
       /\ dict_get r "po_valid" = PFalse
       /\ dict_get r "contact_role" = PStr "Unknown".
Proof.
  intros w. split; [repeat split|].
  destruct (unknown_vendor_is_reported_not_raised Scenario.matcher w
              "evoqua.pdf" "Evoqua Water Technologies"
              (dict_of [("vendor", PStr "Evoqua Water Technologies")])
              eq_refl eq_refl eq_refl eq_refl ltac:(discriminate) eq_refl)
    as (_ & _ & _ & _ & r & Hr & Hvendor & Hpo & _ & _ & _ & _ & _ & _ & Hrole & _).
  exists r. repeat split; assumption.
Defined.

(** ** Resolver failures in the final result *)

Lemma bind_request {B} (w : world) (c : call) (k : api_reply -> M B) :
  bind (request w c) k = (c :: calls (k (post w c)), result (k (post w c))).
Proof. unfold bind, request. by destruct (k (post w c)). Qed.






(** ** Date-range checker *)





(** ** Rate checker: fixed rates *)




Example rate_range_of_500 :
  calls (validate_rate Scenario.matcher
           (Scenario.agreeable Scenario.mid_south Scenario.invoice_text)
           Scenario.invoice_text (PStr Scenario.mid_south))
  = [RateQuery Scenario.invoice_text (SStr "monthly") (Fin 500)
       (Fin (500 - 500 * (5 # 100))) (Fin (500 + 500 * (5 # 100)))].
Proof. reflexivity. Qed.

(** ** Registry loader: rows of the rate sheet *)






(** ** Routing decision *)



Lemma registry_lookup_found (self : PDFVendorMatcher) (vendor_name : pyval)
    (vendor_info : record) :
  registry_lookup self vendor_name = Ret (Some vendor_info) ->
  exists name,
    vendor_name = PStr name /\ vendor_data self !! name = Some vendor_info.
Proof.
  destruct vendor_name as [[| | |b|z|q|s|y m d]|l|d]; simpl; try discriminate.
  intros [= Hs]. by exists s.
Qed.









(** * Further properties *)

(** ** Upload filter *)

Lemma contains_dot_cons (c : ascii) (s : string) :
  Text.contains "." (String c s) = is_dot c || Text.contains "." s.
Proof.
  rewrite contains_cons. f_equal. unfold is_dot.
  destruct (Ascii.eqb c ".") eqn:Hc.
  - apply Ascii.eqb_eq in Hc as ->. apply prefix_iff. by exists s.
  - destruct (String.prefix "." (String c s)) eqn:Hp; [|done].
    apply prefix_iff in Hp as [rest Hrest].
    change ("." +:+ rest) with (String "." rest) in Hrest.
    injection Hrest as -> _. by rewrite Ascii.eqb_refl in Hc.
Qed.

Lemma after_last_dot_none (s : string) :
  after_last_dot s = None <-> Text.contains "." s = false.
Proof.
  induction s as [|c s IH]; [done|].
  rewrite contains_dot_cons, orb_false_iff. simpl.
  destruct (after_last_dot s) as [ext|].
  - split; [done|]. intros [_ Hs]. apply IH in Hs. discriminate.
  - destruct (is_dot c).
    + split; [discriminate | intros [? _]; discriminate].
    + split; [intros _; split; [done | by apply IH] | done].
Qed.

Lemma after_last_dot_some (s ext : string) :
  after_last_dot s = Some ext <->
  exists stem, s = stem +:+ "." +:+ ext /\ Text.contains "." ext = false.
Proof.
  split.
  - revert ext. induction s as [|c s IH]; intros ext; [done|]. simpl.
    destruct (after_last_dot s) as [ext'|] eqn:Hs.
    + intros [= <-]. destruct (IH ext' eq_refl) as (stem & -> & Hext).
      by exists (String c stem).
    + destruct (is_dot c) eqn:Hc; [|done]. intros [= <-].
      apply Ascii.eqb_eq in Hc as ->. exists EmptyString.
      split; [done|]. by apply after_last_dot_none.
  - intros (stem & -> & Hext). apply after_last_dot_none in Hext.
    induction stem as [|c stem IH].
    + change (EmptyString +:+ "." +:+ ext) with (String "." ext). simpl.
      by rewrite Hext.
    + rewrite append_cons. simpl. by rewrite IH.
Qed.

(** X1. The upload filter accepts a file name exactly when the text after
    its last dot reads "pdf" in some letter case: a name without a dot, a
    name that ends in a dot and a PDF name followed by another extension
    are turned away. *)
Theorem allowed_file_iff (filename : string) :
  allowed_file filename = true <->
  exists stem ext,
    filename = stem +:+ "." +:+ ext
    /\ Text.contains "." ext = false
    /\ Text.lower ext = "pdf".
Proof.
  unfold allowed_file. rewrite andb_true_iff. split.
  - intros [_ Hext]. destruct (after_last_dot filename) as [ext|] eqn:Hlast;
      [|discriminate].
    apply after_last_dot_some in Hlast as (stem & -> & Hnodot).
    exists stem, ext. repeat split; [done|].
    unfold Text.mem, ALLOWED_EXTENSIONS in Hext. simpl in Hext.
    rewrite orb_false_r in Hext. by apply String.eqb_eq.
  - intros (stem & ext & -> & Hnodot & Hpdf). split.
    + apply contains_iff. by exists stem, ext.
    + assert (after_last_dot (stem +:+ "." +:+ ext) = Some ext) as ->
        by (apply after_last_dot_some; eauto).
      by rewrite Hpdf.
Qed.

Example allowed_file_examples :
  allowed_file "invoice 12628.PDF" = true
  /\ allowed_file "pdf" = false
  /\ allowed_file "invoice.pdf.exe" = false
  /\ allowed_file "invoice." = false.
Proof. done. Qed.

(** ** Text extractor *)

Lemma words_nil_iff (s : string) :
  Extractor.words s = [] <-> all_space s = true.
Proof.
  induction s as [|c s IH]; [done|]. simpl.
  destruct (Text.is_space c); simpl; [exact IH|].
  split; [|discriminate].
  destruct (Extractor.starts_word s); [|discriminate].
  by destruct (Extractor.words s).
Qed.

Lemma words_head (s w : string) (ws : list string) :
  Extractor.words s = w :: ws -> Extractor.starts_word w = true.
Proof.
  revert w ws. induction s as [|c s IH]; intros w ws; [done|]. simpl.
  destruct (Text.is_space c) eqn:Hc; [apply IH|].
  destruct (Extractor.starts_word s).
  - destruct (Extractor.words s); intros [= <- _]; simpl; by rewrite Hc.
  - intros [= <- _]. simpl. by rewrite Hc.
Qed.

Lemma starts_word_app (w rest : string) :
  Extractor.starts_word w = true -> Extractor.starts_word (w +:+ rest) = true.
Proof. by destruct w. Qed.

Lemma join_starts_word (sep w : string) (ws : list string) :
  Extractor.starts_word w = true ->
  Extractor.starts_word (Text.join sep (w :: ws)) = true.
Proof.
  intros Hw. destruct ws as [|w' ws]; [done|].
  change (Text.join sep (w :: w' :: ws))
    with (w +:+ sep +:+ Text.join sep (w' :: ws)).
  by apply starts_word_app.
Qed.

(** A cleaned line is empty, or begins with a character that is not
    white space. *)
Lemma clean_line_cases (line : string) :
  (Extractor.clean_line line = EmptyString /\ all_space line = true)
  \/ (Extractor.starts_word (Extractor.clean_line line) = true
      /\ all_space line = false).
Proof.
  unfold Extractor.clean_line.
  destruct (Extractor.words line) as [|w ws] eqn:Hwords.
  - left. split; [done|]. by apply words_nil_iff.
  - right. split.
    + apply join_starts_word. by apply (words_head line w ws).
    + destruct (all_space line) eqn:Hspace; [|done].
      apply words_nil_iff in Hspace. congruence.
Qed.

Lemma all_space_split (s : string) :
  all_space s = true <->
  Forall (fun line => all_space line = true)
         (Extractor.split_on Extractor.newline s).
Proof.
  induction s as [|c s IH]; simpl.
  - split; [by repeat constructor | done].
  - destruct (Ascii.eqb c Extractor.newline) eqn:Hc.
    + apply Ascii.eqb_eq in Hc as ->. simpl. rewrite IH.
      split; [by constructor | by inversion 1].
    + destruct (Extractor.split_on Extractor.newline s) as [|piece pieces].
      * rewrite andb_true_iff, IH. split.
        -- intros [Hc' _]. constructor; [|done]. simpl. by rewrite Hc'.
        -- inversion 1 as [|? ? Hhead _]. simpl in Hhead.
           rewrite andb_true_r in Hhead. split; [done | constructor].
      * rewrite andb_true_iff, IH. split.
        -- intros [Hc' Hall]. inversion Hall; subst.
           constructor; [|done]. simpl. by rewrite Hc'.
        -- inversion 1 as [|? ? Hhead Htail]. simpl in Hhead.
           apply andb_true_iff in Hhead as [? ?]. split; [done|].
           by constructor.
Qed.

Lemma strip_starts_word (s : string) :
  Extractor.starts_word s = true -> Text.strip s <> EmptyString.
Proof.
  destruct s as [|c s]; [done|]. simpl. intros Hc%negb_true_iff.
  unfold Text.strip. simpl. rewrite Hc. simpl.
  destruct (Text.rstrip s); by rewrite ?Hc.
Qed.

Lemma cleaned_lines_nil (lines : list string) :
  filter (fun cleaned_line => negb (Text.is_empty cleaned_line))
         (map Extractor.clean_line lines) = []
  <-> Forall (fun line => all_space line = true) lines.
Proof.
  induction lines as [|line lines IH]; [by split; [constructor|]|].
  simpl. rewrite filter_cons.
  destruct (clean_line_cases line) as [[Hclean Hspace] | [Hstart Hspace]].
  - rewrite Hclean. simpl.
    rewrite IH. split; [by constructor | by inversion 1].
  - assert (negb (Text.is_empty (Extractor.clean_line line)) = true) as Hne
      by (by destruct (Extractor.clean_line line)).
    rewrite decide_True by (by rewrite Hne).
    split; [discriminate|]. inversion 1; congruence.
Qed.

Lemma cleaned_lines_head (lines : list string) (l : string) (ls : list string) :
  filter (fun cleaned_line => negb (Text.is_empty cleaned_line))
         (map Extractor.clean_line lines) = l :: ls ->
  Extractor.starts_word l = true.
Proof.
  induction lines as [|line lines IH]; [done|].
  simpl. rewrite filter_cons.
  destruct (clean_line_cases line) as [[Hclean _] | [Hstart _]].
  - rewrite Hclean. simpl. exact IH.
  - assert (negb (Text.is_empty (Extractor.clean_line line)) = true) as Hne
      by (by destruct (Extractor.clean_line line)).
    rewrite decide_True by (by rewrite Hne). by intros [= <- _].
Qed.

(** X2. The extractor returns the empty text exactly when the text the
    PDF libraries delivered holds nothing but white space (or nothing at
    all); whenever that happens [process_pdf] ends in the extraction error
    without a request to the service. *)
Theorem extracted_text_empty_iff_blank
    (pypdf2 : Extractor.library_run)
    (pdfplumber : option Extractor.library_run) :
  (Extractor.extract_pdf_text pypdf2 pdfplumber = EmptyString
   <-> all_space (Extractor.raw_text pypdf2 pdfplumber) = true)
  /\ forall (self : PDFVendorMatcher) (w : world) (pdf_path : string),
       extract_pdf_text w pdf_path
         = Extractor.extract_pdf_text pypdf2 pdfplumber ->
       all_space (Extractor.raw_text pypdf2 pdfplumber) = true ->
       process_pdf self w pdf_path = ([], Ret extraction_error).
Proof.
  assert (Extractor.extract_pdf_text pypdf2 pdfplumber = EmptyString
          <-> all_space (Extractor.raw_text pypdf2 pdfplumber) = true) as Hiff.
  { unfold Extractor.extract_pdf_text, Extractor.clean_text.
    set (text := Extractor.raw_text pypdf2 pdfplumber).
    destruct (Text.is_empty text) eqn:Hempty.
    { destruct text; [done | discriminate]. }
    rewrite all_space_split, <- cleaned_lines_nil.
    destruct (filter _ _) as [|l ls] eqn:Hlines; [done|].
    split; [|discriminate]. intros Hstrip. exfalso.
    apply (strip_starts_word (Text.join (String Extractor.newline EmptyString)
                                        (l :: ls))); [|done].
    apply join_starts_word. by apply (cleaned_lines_head _ _ _ Hlines). }
  split; [exact Hiff|].
  intros self w pdf_path Hw Hblank. apply Hiff in Hblank.
  unfold process_pdf. by rewrite Hw, Hblank.
Qed.

Example extracted_text_cleaned :
  Extractor.extract_pdf_text
    {| Extractor.pages_read := [Some "  ACME   Corp "; None; Some EmptyString];
       Extractor.raised := true |}
    None
  = "ACME Corp".
Proof. reflexivity. Qed.

Lemma extracted_text_witness :
  let scan := {| Extractor.pages_read := [Some "   "; None; Some "  "];
                 Extractor.raised := false |} in
  let w := {| extract_pdf_text := fun _ => Extractor.extract_pdf_text scan None;
              post := fun _ => CallRaised "unused" |} in
  all_space (Extractor.raw_text scan None) = true
  /\ process_pdf Scenario.matcher w "scan.pdf" = ([], Ret extraction_error).
Proof.
  intros scan w. split; [reflexivity|].
  destruct (extracted_text_empty_iff_blank scan None) as [_ Hrun].
  apply (Hrun Scenario.matcher w "scan.pdf"); reflexivity.
Defined.

(** ** The requests each function sends *)

Lemma calls_ret {A} (a : A) : calls (ret a) = [].
Proof. done. Qed.

Lemma calls_request_bind {B} (w : world) (c : call) (k : api_reply -> M B) :
  calls (bind (request w c) k) = c :: calls (k (post w c)).
Proof. by rewrite bind_request. Qed.

Lemma calls_query_amplify_api (self : PDFVendorMatcher) (w : world)
    (pdf_text : string) :
  calls (query_amplify_api self w pdf_text)
  = if configured self then [VendorQuery pdf_text (vendor_list self)] else [].
Proof.
  unfold query_amplify_api. destruct (configured self); [|done].
  simpl negb. cbv iota. rewrite calls_request_bind. f_equal.
  destruct (post w _) as [msg|status_code data]; [done|].
  destruct (status_code =? 200)%Z; [|done]. by destruct data.
Qed.

Lemma calls_validate_dates_with_llm (self : PDFVendorMatcher) (w : world)
    (pdf_text : string) (contract_start contract_end : scalar) :
  calls (_validate_dates_with_llm self w pdf_text contract_start contract_end)
  = if configured self
    then [DateQuery pdf_text contract_start contract_end] else [].
Proof.
  unfold _validate_dates_with_llm. destruct (configured self); [|done].
  simpl negb. cbv iota. rewrite calls_request_bind. f_equal.
  destruct (post w _) as [msg|status_code data]; [done|].
  destruct (status_code =? 200)%Z; [|done]. by destruct data.
Qed.

Lemma calls_validate_rate_with_llm (self : PDFVendorMatcher) (w : world)
    (pdf_text : string) (expected_rate_type expected_amount : scalar) :
  calls (_validate_rate_with_llm self w pdf_text expected_rate_type
           expected_amount)
  = if configured self then
      match as_number expected_amount with
      | Ret amount =>
          [RateQuery pdf_text expected_rate_type amount
             (num_sub amount (num_mul amount (Fin (5 # 100))))
             (num_add amount (num_mul amount (Fin (5 # 100))))]
      | Raise _ => []
      end
    else [].
Proof.
  unfold _validate_rate_with_llm. destruct (configured self); [|done].
  simpl negb. cbv iota. rewrite calls_bind, result_lift, calls_lift.
  destruct (as_number expected_amount) as [amount|e]; [|done].
  rewrite app_nil_l, calls_request_bind. f_equal.
  destruct (post w _) as [msg|status_code data]; [done|].
  destruct (status_code =? 200)%Z; [|done]. by destruct data.
Qed.

Lemma calls_validate_date_range (self : PDFVendorMatcher) (w : world)
    (pdf_text : string) (vendor_name : pyval) :
  calls (validate_date_range self w pdf_text vendor_name) = []
  \/ (configured self = true
      /\ exists contract_start contract_end,
           calls (validate_date_range self w pdf_text vendor_name)
           = [DateQuery pdf_text contract_start contract_end]).
Proof.
  unfold validate_date_range. rewrite calls_bind, result_lift, calls_lift.
  destruct (registry_lookup self vendor_name) as [[vendor_info|]|];
    [|by left..].
  rewrite app_nil_l.
  destruct (negb _ || negb _ || _ || _); [by left|].
  rewrite calls_validate_dates_with_llm.
  destruct (configured self); [right; eauto | by left].
Qed.

Lemma calls_validate_rate (self : PDFVendorMatcher) (w : world)
    (pdf_text : string) (vendor_name : pyval) :
  calls (validate_rate self w pdf_text vendor_name) = []
  \/ (configured self = true
      /\ exists expected_rate_type amount min_amount max_amount,
           calls (validate_rate self w pdf_text vendor_name)
           = [RateQuery pdf_text expected_rate_type amount min_amount
                max_amount]).
Proof.
  unfold validate_rate. rewrite calls_bind, result_lift, calls_lift.
  destruct (registry_lookup self vendor_name) as [[vendor_info|]|];
    [|by left..].
  rewrite app_nil_l.
  destruct (negb _ && negb _); [by left|].
  rewrite calls_bind, result_lift, calls_lift.
  match goal with
  | |- context [match ?o with Ret _ => _ | Raise _ => _ end] =>
      destruct o as [[|]|]
  end; [by left | | by left].
  rewrite app_nil_l.
  assert (forall t a,
            calls (_validate_rate_with_llm self w pdf_text t a) = []
            \/ (configured self = true
                /\ exists ty amount lo hi,
                     calls (_validate_rate_with_llm self w pdf_text t a)
                     = [RateQuery pdf_text ty amount lo hi])) as Hllm.
  { intros t a. rewrite calls_validate_rate_with_llm.
    destruct (configured self); [|by left].
    destruct (as_number a); [right; eauto 10 | by left]. }
  destruct (_ && _); [apply Hllm|].
  destruct (_ && _); [apply Hllm | by left].
Qed.

(** ** Missing credentials *)

(** X3. Without the service URL or the key nothing is ever sent: neither
    the resolver nor a checker nor the orchestrator makes a request. The
    resolver then returns [None], the delegated date and rate checks
    return the outcome [False] with a reason that says so, and
    [process_pdf] returns the configuration error for every document
    with text. *)
Theorem no_credentials_no_requests
    (self : PDFVendorMatcher) (w : world) (pdf_text : string) :
  configured self = false ->
  query_amplify_api self w pdf_text = ([], Ret PNone)
  /\ (forall contract_start contract_end,
        _validate_dates_with_llm self w pdf_text contract_start contract_end
        = ([], Ret (date_failure "API not configured for date validation")))
  /\ (forall expected_rate_type expected_amount,
        _validate_rate_with_llm self w pdf_text expected_rate_type
          expected_amount
        = ([], Ret (rate_failure "API not configured for rate validation")))
  /\ (forall vendor_name,
        calls (validate_date_range self w pdf_text vendor_name) = []
        /\ calls (validate_rate self w pdf_text vendor_name) = [])
  /\ (forall pdf_path,
        calls (process_pdf self w pdf_path) = []
        /\ (extract_pdf_text w pdf_path <> EmptyString ->
            process_pdf self w pdf_path = ([], Ret configuration_error))).
Proof.
  intros Hconf.
  split; [unfold query_amplify_api; by rewrite Hconf|].
  split; [intros; unfold _validate_dates_with_llm; by rewrite Hconf|].
  split; [intros; unfold _validate_rate_with_llm; by rewrite Hconf|].
  split.
  - intros vendor_name. split.
    + destruct (calls_validate_date_range self w pdf_text vendor_name)
        as [Hnone | [Hyes _]]; [done | congruence].
    + destruct (calls_validate_rate self w pdf_text vendor_name)
        as [Hnone | [Hyes _]]; [done | congruence].
  - intros pdf_path. unfold process_pdf.
    destruct (Text.is_empty (extract_pdf_text w pdf_path)) eqn:Htext.
    + split; [done|]. by destruct (extract_pdf_text w pdf_path).
    + by rewrite Hconf.
Qed.

Lemma no_credentials_witness :
  let self := with_vendor_list empty_matcher [Scenario.mid_south] in
  configured self = false
  /\ query_amplify_api self
       (Scenario.agreeable Scenario.mid_south Scenario.invoice_text)
       Scenario.invoice_text = ([], Ret PNone).
Proof.
  intros self. split; [reflexivity|].
  apply (no_credentials_no_requests self
           (Scenario.agreeable Scenario.mid_south Scenario.invoice_text)
           Scenario.invoice_text eq_refl).
Defined.

(** ** The requests of one run *)

(** X4. One run of [process_pdf] sends at most three requests: at most one
    to resolve the vendor, then at most one for the dates, then at most
    one for the rate, in this order, each built from the text extracted
    from this document; no checker request goes out unless the vendor
    request did. *)
Theorem process_pdf_request_discipline
    (self : PDFVendorMatcher) (w : world) (pdf_path : string) :
  let pdf_text := extract_pdf_text w pdf_path in
  exists vendor_calls date_calls rate_calls,
    calls (process_pdf self w pdf_path)
      = (vendor_calls ++ date_calls ++ rate_calls)%list
    /\ (vendor_calls = []
        \/ vendor_calls = [VendorQuery pdf_text (vendor_list self)])
    /\ (date_calls = []
        \/ exists contract_start contract_end,
             date_calls = [DateQuery pdf_text contract_start contract_end])
    /\ (rate_calls = []
        \/ exists expected_rate_type amount min_amount max_amount,
             rate_calls = [RateQuery pdf_text expected_rate_type amount
                             min_amount max_amount])
    /\ (vendor_calls = [] -> date_calls = [] /\ rate_calls = []).
Proof.
  intros pdf_text. unfold process_pdf. fold pdf_text.
  assert (forall (l : list call),
            l = [] ->
            exists v d r : list call,
              l = (v ++ d ++ r)%list
              /\ (v = [] \/ v = [VendorQuery pdf_text (vendor_list self)])
              /\ (d = [] \/ exists s e, d = [DateQuery pdf_text s e])
              /\ (r = [] \/ exists t a lo hi, r = [RateQuery pdf_text t a lo hi])
              /\ (v = [] -> d = [] /\ r = [])) as Hquiet.
  { intros l ->. exists [], [], []. repeat split; by left. }
  destruct (Text.is_empty pdf_text); [by apply Hquiet|].
  destruct (configured self) eqn:Hconf; [|by apply Hquiet].
  simpl negb. cbv iota.
  rewrite calls_bind, calls_query_amplify_api, Hconf.
  set (V := VendorQuery pdf_text (vendor_list self)).
  assert (forall (l d r : list call),
            l = ([V] ++ d ++ r)%list ->
            (d = [] \/ exists s e, d = [DateQuery pdf_text s e]) ->
            (r = [] \/ exists t a lo hi, r = [RateQuery pdf_text t a lo hi]) ->
            exists v' d' r' : list call,
              l = (v' ++ d' ++ r')%list
              /\ (v' = [] \/ v' = [V])
              /\ (d' = [] \/ exists s e, d' = [DateQuery pdf_text s e])
              /\ (r' = [] \/ exists t a lo hi, r' = [RateQuery pdf_text t a lo hi])
              /\ (v' = [] -> d' = [] /\ r' = [])) as Hsent.
  { intros l d r -> Hd Hr. exists [V], d, r. repeat split; try done. by right. }
  assert (forall l : list call,
            l = [V] ->
            exists v' d' r' : list call,
              l = (v' ++ d' ++ r')%list
              /\ (v' = [] \/ v' = [V])
              /\ (d' = [] \/ exists s e, d' = [DateQuery pdf_text s e])
              /\ (r' = [] \/ exists t a lo hi, r' = [RateQuery pdf_text t a lo hi])
              /\ (v' = [] -> d' = [] /\ r' = [])) as Honly.
  { intros l ->. apply (Hsent _ [] []); [done | by left..]. }
  destruct (result (query_amplify_api self w pdf_text)) as [api_response|e];
    [|by apply Honly].
  rewrite calls_bind, result_lift, calls_lift.
  destruct (no_match api_response) as [[|]|e]; [by apply Honly | | by apply Honly].
  rewrite app_nil_l, calls_bind, result_lift, calls_lift.
  destruct (py_getitem api_response "vendor") as [vendor_name|e];
    [|by apply Honly].
  rewrite app_nil_l, calls_bind, result_lift, calls_lift.
  destruct (validate_po_number self pdf_text vendor_name) as [po_validation|e];
    [|by apply Honly].
  rewrite app_nil_l.
  pose proof (calls_validate_date_range self w pdf_text vendor_name) as Hd.
  pose proof (calls_validate_rate self w pdf_text vendor_name) as Hr.
  assert (calls (validate_date_range self w pdf_text vendor_name) = []
          \/ exists s e, calls (validate_date_range self w pdf_text vendor_name)
                         = [DateQuery pdf_text s e]) as Hd' by tauto.
  assert (calls (validate_rate self w pdf_text vendor_name) = []
          \/ exists t a lo hi, calls (validate_rate self w pdf_text vendor_name)
                               = [RateQuery pdf_text t a lo hi]) as Hr' by tauto.
  rewrite calls_bind.
  destruct (result (validate_date_range self w pdf_text vendor_name))
    as [date_validation|e].
  2: { eapply (Hsent _ _ []); [by rewrite app_nil_r | done | by left]. }
  rewrite calls_bind.
  destruct (result (validate_rate self w pdf_text vendor_name))
    as [rate_validation|e]; [|by eapply Hsent].
  rewrite calls_bind, result_lift, calls_lift.
  destruct (as_dict date_validation) as [date_dict|e];
    [|rewrite app_nil_r; by eapply Hsent].
  rewrite app_nil_l, calls_bind, result_lift, calls_lift.
  destruct (_determine_contact_person _ _ _ _ _) as [contact_person|e];
    rewrite ?app_nil_l, ?calls_ret, ?app_nil_r; by eapply Hsent.
Qed.

(** ** A delegated check that cannot be evaluated *)

Lemma date_failure_valid (reason : string) :
  exists d, date_failure reason = PDict d
            /\ dict_get d "date_valid" = PFalse
            /\ dict_get d "reason" = PStr reason.
Proof. by eexists. Qed.

(** X5. The delegated date check never raises. When the service is not
    configured, the call raised, the status is not 200, the data are
    empty or they do not parse, it returns the outcome [False] with a
    reason that is not empty; only an answer that parses is passed on, as
    it is. *)
Theorem date_check_failure_is_invalid
    (self : PDFVendorMatcher) (w : world) (pdf_text : string)
    (contract_start contract_end : scalar) :
  let run :=
    _validate_dates_with_llm self w pdf_text contract_start contract_end in
  let reply := post w (DateQuery pdf_text contract_start contract_end) in
  (exists v, result run = Ret v)
  /\ (configured self = false \/ decoded reply = None ->
      exists reason d,
        result run = Ret (PDict d)
        /\ dict_get d "date_valid" = PFalse
        /\ dict_get d "reason" = PStr reason
        /\ reason <> EmptyString)
  /\ (configured self = true ->
      forall v, decoded reply = Some v -> result run = Ret v).
Proof.
  intros run reply. subst run. unfold _validate_dates_with_llm.
  destruct (configured self) eqn:Hconf; simpl negb; cbv iota.
  2: { split; [by eexists|]. split; [|discriminate].
       intros _. by eexists _, _. }
  rewrite bind_request. fold reply. simpl result.
  destruct reply as [msg|status_code data]; simpl decoded.
  { split; [by eexists|]. split; [|by intros _ v].
    intros _. by eexists _, _. }
  destruct (status_code =? 200)%Z.
  - destruct data; simpl;
      (split; [by eexists|]); (split; [|intros _ ? [= <-]; done]);
      intros [? | ?]; try discriminate; by eexists _, _.
  - split; [by eexists|]. split.
    + intros _. by eexists _, _.
    + intros _ v. by destruct data.
Qed.

Lemma date_check_failure_witness :
  let w := Scenario.unreachable Scenario.invoice_text in
  decoded (post w (DateQuery Scenario.invoice_text (SDate 2025 1 1)
                     (SDate 2025 12 31))) = None
  /\ exists reason d,
       result (_validate_dates_with_llm Scenario.matcher w
                 Scenario.invoice_text (SDate 2025 1 1) (SDate 2025 12 31))
         = Ret (PDict d)
       /\ dict_get d "date_valid" = PFalse
       /\ dict_get d "reason" = PStr reason
       /\ reason <> EmptyString.
Proof.
  intros w. split; [reflexivity|].
  destruct (date_check_failure_is_invalid Scenario.matcher w
              Scenario.invoice_text (SDate 2025 1 1) (SDate 2025 12 31))
    as (_ & Hfail & _).
  apply Hfail. by right.
Defined.



(** ** Rate checker: when the service is asked *)

(** X7. For a vendor of the registry whose rate type is missing or a
    string that does not make the rate variable: without a rate amount on
    file the rate check is inapplicable ([rate_valid] is [None]) and sends
    nothing, with or without a rate type; with an amount on file it is the
    delegated check for that amount, under the recorded type or, when
    there is none, under the type "unknown". *)
Theorem rate_check_asks_only_for_amounts_on_file
    (self : PDFVendorMatcher) (w : world) (pdf_text name : string)
    (vendor_info : record) :
  vendor_data self !! name = Some vendor_info ->
  let rate_type := record_get vendor_info "rate_type" in
  let rate_amount := record_get vendor_info "rate_amount" in
  let run := validate_rate self w pdf_text (PStr name) in
  scalar_truthy rate_type = false \/ (exists s, rate_type = SStr s) ->
  variable_type rate_type = false ->
  (scalar_truthy rate_amount = false ->
     exists r, run = ([], Ret r) /\ dict_get r "rate_valid" = PNone)
  /\ (scalar_truthy rate_amount = true ->
      run = _validate_rate_with_llm self w pdf_text
              (if scalar_truthy rate_type then rate_type else SStr "unknown")
              rate_amount).
Proof.
  intros Hentry rate_type rate_amount run Hshape Hfixed. subst run.
  unfold validate_rate. rewrite registry_lookup_name, Hentry.
  rewrite (run_eq (bind _ _)), result_bind, calls_bind, result_lift, calls_lift.
  rewrite app_nil_l, <- run_eq. cbv zeta. fold rate_type rate_amount.
  assert ((if scalar_truthy rate_type
           then obind (str_lower rate_type)
                  (fun t => Ret (Text.mem t variable_rate_types))
           else Ret false) = Ret false) as Hvar.
  { destruct (scalar_truthy rate_type) eqn:Htruthy; [|done].
    destruct Hshape as [? | [s Hs]]; [congruence|].
    rewrite Hs in Hfixed |- *. simpl in Hfixed |- *. by rewrite Hfixed. }
  split.
  - intros Hamount. rewrite Hamount.
    destruct (scalar_truthy rate_type) eqn:Htruthy; simpl negb; simpl andb;
      cbv iota.
    + rewrite Hvar. by eexists.
    + by eexists.
  - intros Hamount. rewrite Hamount, andb_false_r. cbv iota.
    rewrite (run_eq (bind _ _)), result_bind, calls_bind, result_lift,
      calls_lift, Hvar, app_nil_l, <- run_eq.
    by destruct (scalar_truthy rate_type).
Qed.

Lemma rate_check_asks_witness :
  let vendor_info := Scenario.mid_south_record in
  (vendor_data Scenario.matcher !! Scenario.mid_south = Some vendor_info
   /\ variable_type (record_get vendor_info "rate_type") = false
   /\ scalar_truthy (record_get vendor_info "rate_amount") = true)
  /\ validate_rate Scenario.matcher
       (Scenario.unreachable Scenario.invoice_text) Scenario.invoice_text
       (PStr Scenario.mid_south)
     = _validate_rate_with_llm Scenario.matcher
         (Scenario.unreachable Scenario.invoice_text) Scenario.invoice_text
         (SStr "monthly") (SFloat 500).
Proof.
  intros vendor_info. split; [by repeat split|].
  destruct (rate_check_asks_only_for_amounts_on_file Scenario.matcher
              (Scenario.unreachable Scenario.invoice_text)
              Scenario.invoice_text Scenario.mid_south vendor_info eq_refl
              (or_intror (ex_intro _ "monthly" eq_refl)) eq_refl)
    as [_ Hasked].
  exact (Hasked eq_refl).
Defined.

(** ** Registry loader: what a pass over the rate sheet keeps *)

Lemma find_rate_type_cons (c : scalar) (cells : list scalar) :
  find_rate_type (c :: cells)
  = if Text.mem (Text.lower (Text.strip (py_str c))) rate_vocabulary
    then Some (Text.lower (Text.strip (py_str c)))
    else find_rate_type cells.
Proof. reflexivity. Qed.

Lemma find_rate_type_vocabulary (cells : list scalar) (keyword : string) :
  find_rate_type cells = Some keyword ->
  Text.mem keyword rate_vocabulary = true.
Proof.
  induction cells as [|c cells IH]; [done|]. rewrite find_rate_type_cons.
  destruct (Text.mem (Text.lower (Text.strip (py_str c))) rate_vocabulary)
    eqn:Hmem; [|exact IH].
  by intros [= <-].
Qed.

(** One row leaves the registry as it is, or rewrites the record of the
    one vendor it names. *)
Lemma rate_row_loaded (st : loader_state) (row : list scalar) :
  loaded (rate_row st row).1 = loaded st
  \/ exists vendor_name amount keyword,
       loaded (rate_row st row).1
       = <[vendor_name :=
             update_rate amount keyword
               (default ∅ (loaded st !! vendor_name))]> (loaded st)
       /\ (forall c, amount = Some c ->
             is_int_or_float c = true /\ notna c = true)
       /\ (forall kw, keyword = Some kw ->
             Text.mem kw rate_vocabulary = true).
Proof.
  unfold rate_row.
  destruct (iloc row 0) as [c0|e]; [|by left].
  destruct (notna c0 && _); [|by left].
  destruct (negb _ && _); [|by left].
  set (vendor_name := Text.strip (py_str c0)).
  assert ((match loaded st !! vendor_name with
           | Some _ => loaded st
           | None => <[vendor_name := ∅]> (loaded st)
           end)
          = <[vendor_name := default ∅ (loaded st !! vendor_name)]> (loaded st))
    as Hinit.
  { destruct (loaded st !! vendor_name) as [old|] eqn:Hold; simpl default;
      [by rewrite insert_id | done]. }
  rewrite Hinit. right.
  destruct (iloc row 2) as [c2|e].
  - destruct (notna c2 && is_int_or_float c2) eqn:Hnumber;
      destruct (find_rate_type (drop 1 (take 10 row))) as [kw|] eqn:Hkw;
      simpl fst; simpl loaded; unfold set_field;
      rewrite ?lookup_insert_eq; simpl default; rewrite ?insert_insert_eq.
    + exists vendor_name, (Some c2), (Some kw). split; [done|]. split.
      * intros c [= <-]. apply andb_true_iff in Hnumber. tauto.
      * intros ? [= <-]. by apply (find_rate_type_vocabulary _ _ Hkw).
    + exists vendor_name, (Some c2), None. split; [done|]. split; [|done].
      intros c [= <-]. apply andb_true_iff in Hnumber. tauto.
    + exists vendor_name, None, (Some kw). split; [done|]. split; [done|].
      intros ? [= <-]. by apply (find_rate_type_vocabulary _ _ Hkw).
    + by exists vendor_name, None, None.
  - by exists vendor_name, None, None.
Qed.

Lemma rate_rows_ind (P : loader_state -> Prop) (st : loader_state)
    (rows : list (list scalar)) :
  P st ->
  (forall st' row, P st' -> P (rate_row st' row).1) ->
  P (rate_rows st rows).
Proof.
  intros Hst Hstep. revert st Hst.
  induction rows as [|row rows IH]; intros st Hst; [done|]. simpl.
  pose proof (Hstep st row Hst) as Hnext.
  destruct (rate_row st row) as [st' [e|]]; [done | by apply IH].
Qed.

Lemma update_rate_other_key (amount : option scalar) (keyword : option string)
    (old : record) (key : string) :
  not_a_rate_key key -> update_rate amount keyword old !! key = old !! key.
Proof.
  intros [Hamount Htype]. unfold update_rate.
  destruct keyword, amount; by rewrite ?lookup_insert_ne.
Qed.

Lemma load_rate_data_keeps (self : PDFVendorMatcher)
    (sheet : option (list (list scalar))) (name : string) (entry : record) :
  vendor_data self !! name = Some entry ->
  exists entry',
    vendor_data (_load_rate_data self sheet) !! name = Some entry'
    /\ forall key, not_a_rate_key key -> entry' !! key = entry !! key.
Proof.
  intros Hentry. destruct sheet as [rows|]; simpl; [|exists entry; by split].
  apply (rate_rows_ind
           (fun st => exists entry',
              loaded st !! name = Some entry'
              /\ forall key, not_a_rate_key key -> entry' !! key = entry !! key));
    [exists entry; by split|].
  intros st row (entry' & Hentry' & Hkeys).
  destruct (rate_row_loaded st row)
    as [-> | (vendor_name & amount & keyword & -> & _)]; [by eauto|].
  destruct (decide (vendor_name = name)) as [->|Hne].
  - rewrite lookup_insert_eq, Hentry'. simpl default. eexists. split; [done|].
    intros key Hkey. rewrite update_rate_other_key by done. by apply Hkeys.
  - rewrite lookup_insert_ne by done. by eauto.
Qed.

(** X8. Loading the rate sheet never removes a vendor from the registry
    and never touches a field other than the rate amount and the rate
    type: the contract dates and the PO read from the agreements sheet
    are still there afterwards, and so are the candidate list and the
    credentials. *)
Theorem rate_loading_keeps_agreement_fields
    (self : PDFVendorMatcher) (sheet : option (list (list scalar)))
    (name : string) (entry : record) :
  vendor_data self !! name = Some entry ->
  let loaded_matcher := _load_rate_data self sheet in
  (exists entry',
     vendor_data loaded_matcher !! name = Some entry'
     /\ forall key, not_a_rate_key key -> entry' !! key = entry !! key)
  /\ vendor_list loaded_matcher = vendor_list self
  /\ amplify_api_url loaded_matcher = amplify_api_url self
  /\ amplify_api_key loaded_matcher = amplify_api_key self.
Proof.
  intros Hentry loaded_matcher. subst loaded_matcher.
  split; [by apply load_rate_data_keeps|]. by destruct sheet.
Qed.

Lemma rate_loading_witness :
  vendor_data Scenario.matcher !! Scenario.mid_south
    = Some Scenario.mid_south_record
  /\ exists entry',
       vendor_data (_load_rate_data Scenario.matcher (Some rates_sheet))
         !! Scenario.mid_south = Some entry'
       /\ forall key,
            not_a_rate_key key ->
            entry' !! key = Scenario.mid_south_record !! key.
Proof.
  split; [reflexivity|].
  apply (rate_loading_keeps_agreement_fields Scenario.matcher
           (Some rates_sheet) Scenario.mid_south Scenario.mid_south_record
           eq_refl).
Defined.

Lemma rate_fields_ok_load (self : PDFVendorMatcher)
    (sheet : option (list (list scalar))) :
  map_Forall (fun _ entry => rate_fields_ok entry) (vendor_data self) ->
  map_Forall (fun _ entry => rate_fields_ok entry)
             (vendor_data (_load_rate_data self sheet)).
Proof.
  destruct sheet as [rows|]; intros Hok; simpl; [|done].
  apply (rate_rows_ind
           (fun st => map_Forall (fun _ entry => rate_fields_ok entry)
                                 (loaded st))); [done|].
  intros st row Hst.
  destruct (rate_row_loaded st row)
    as [-> | (vendor_name & amount & keyword & -> & Hamount & Hkeyword)];
    [done|].
  apply map_Forall_insert_2; [|done].
  assert (rate_fields_ok (default ∅ (loaded st !! vendor_name))) as [Ht Ha].
  { destruct (loaded st !! vendor_name) as [old|] eqn:Hold; simpl.
    - by apply (Hst vendor_name).
    - split; intros v; by rewrite lookup_empty. }
  unfold update_rate. split; intros v.
  - destruct keyword as [kw|].
    + rewrite lookup_insert_eq. intros [= <-]. exists kw. split; [done|].
      by apply Hkeyword.
    + destruct amount; rewrite ?lookup_insert_ne by done; apply Ht.
  - destruct keyword as [kw|]; rewrite ?lookup_insert_ne by done;
      (destruct amount as [c|];
       [rewrite lookup_insert_eq; intros [= <-]; by apply Hamount
       | apply Ha]).
Qed.

Lemma rate_fields_ok_agreements (df : DataFrame) (rows : list (list scalar))
    (vd : gmap string record) :
  map_Forall (fun _ entry => rate_fields_ok entry) vd ->
  map_Forall (fun _ entry => rate_fields_ok entry)
             (fold_left (agreement_row df) rows vd).
Proof.
  revert vd. induction rows as [|row rows IH]; intros vd Hvd; [done|].
  simpl. apply IH. unfold agreement_row.
  destruct (negb _ && negb _); [|done].
  apply map_Forall_insert_2; [|done].
  split; intros v Hv; vm_compute in Hv; discriminate.
Qed.

Lemma rate_fields_ok_init (wb : workbook) (api_url api_key : option string) :
  map_Forall (fun _ entry => rate_fields_ok entry)
             (vendor_data (__init__ wb api_url api_key)).
Proof.
  unfold __init__. apply rate_fields_ok_load.
  unfold _load_vendor_data, _load_vendor_list_fallback.
  destruct (service_agreements wb) as [df|];
    [destruct (Text.mem "Vendor" (columns df))|];
    repeat match goal with
           | |- context [match ?o with Some _ => _ | None => _ end] =>
               destruct o
           end;
    simpl vendor_data; try apply rate_fields_ok_agreements;
    apply map_Forall_empty.
Qed.

(** X9. Loading the rate sheet keeps the rate fields well formed: when
    every rate type in the registry is a keyword of the vocabulary and
    every rate amount a number that is not NaN before, so it is after; a
    registry built by [__init__] always is. *)
Theorem rate_loading_keeps_rate_fields_well_formed
    (self : PDFVendorMatcher) (sheet : option (list (list scalar))) :
  (map_Forall (fun _ entry => rate_fields_ok entry) (vendor_data self) ->
   map_Forall (fun _ entry => rate_fields_ok entry)
              (vendor_data (_load_rate_data self sheet)))
  /\ forall wb api_url api_key,
       map_Forall (fun _ entry => rate_fields_ok entry)
                  (vendor_data (__init__ wb api_url api_key)).
Proof.
  split; [apply rate_fields_ok_load | apply rate_fields_ok_init].
Qed.

Lemma rate_fields_witness :
  map_Forall (fun _ entry => rate_fields_ok entry) (vendor_data empty_matcher)
  /\ map_Forall (fun _ entry => rate_fields_ok entry)
       (vendor_data (_load_rate_data empty_matcher (Some rates_sheet))).
Proof.
  split; [apply map_Forall_empty|].
  destruct (rate_loading_keeps_rate_fields_well_formed empty_matcher
              (Some rates_sheet)) as [Hkeep _].
  apply Hkeep, map_Forall_empty.
Defined.

(** ** Rate checker on a loaded registry *)







(** ** Registry loader: rows at the edges *)

(** X11. A row of the rate sheet whose first cell, trimmed, has at most
    three characters names no vendor: the row is skipped whatever else it
    holds, so a vendor called "IBM" or "3M" never gets rate data. *)
Theorem short_vendor_names_are_skipped
    (st : loader_state) (row : list scalar) (c0 : scalar) :
  row !! 0%nat = Some c0 ->
  (String.length (Text.strip (py_str c0)) <= 3)%nat ->
  rate_row st row = (st, None).
Proof.
  intros Hc0 Hshort. unfold rate_row, iloc. rewrite Hc0.
  destruct (notna c0 && _); [|done].
  assert ((3 <? String.length (Text.strip (py_str c0)))%nat = false) as ->
    by (apply Nat.ltb_ge; lia).
  by rewrite andb_false_r.
Qed.

Lemma short_vendor_names_witness :
  let row := [SStr " IBM "; SStr "annual"; SFloat 1200] in
  let st := {| current_vendor := None; loaded := ∅ |} in
  (row !! 0%nat = Some (SStr " IBM ")
   /\ (String.length (Text.strip (py_str (SStr " IBM "))) <= 3)%nat)
  /\ rate_row st row = (st, None).
Proof.
  intros row st. split; [split; [reflexivity | simpl; lia]|].
  apply (short_vendor_names_are_skipped st row (SStr " IBM ") eq_refl).
  simpl. lia.
Defined.


(** X12. When a row of the rate sheet names a vendor but has fewer than
    three cells, reading its rate amount raises: the vendor is left
    registered, without any rate data when it was new, the loop ends there
    and every row after it is ignored. *)
Theorem narrow_rate_sheet_stops_loading
    (st : loader_state) (row : list scalar) (rest : list (list scalar))
    (c0 : scalar) (vendor_name : string) :
  row !! 0%nat = Some c0 ->
  names_vendor c0 vendor_name ->
  (length row < 3)%nat ->
  rate_rows st (row :: rest)
  = {| current_vendor := Some vendor_name;
       loaded := <[vendor_name := default ∅ (loaded st !! vendor_name)]>
                   (loaded st) |}.
Proof.
  intros Hc0 (Hna & -> & Hnonempty & Hnan & Hlen) Hnarrow.
  simpl rate_rows. unfold rate_row, iloc. rewrite Hc0.
  unfold notna at 1. rewrite Hna.
  set (vendor_name := Text.strip (py_str c0)) in *.
  assert (Text.is_empty vendor_name = false) as -> by (by destruct vendor_name).
  assert ((vendor_name =? "nan")%string = false) as ->
    by (by apply String.eqb_neq).
  assert ((3 <? String.length vendor_name)%nat = true) as ->
    by (by apply Nat.ltb_lt).
  simpl negb. simpl andb. cbv iota.
  assert (row !! 2%nat = None) as -> by (apply lookup_ge_None; lia).
  f_equal.
  destruct (loaded st !! vendor_name) as [old|] eqn:Hold; simpl default;
    [by rewrite insert_id | done].
Qed.

Lemma narrow_rate_sheet_witness :
  ([SStr "Acme Cleaning"; SStr "monthly"] !! 0%nat = Some (SStr "Acme Cleaning")
   /\ names_vendor (SStr "Acme Cleaning") "Acme Cleaning"
   /\ (length [SStr "Acme Cleaning"; SStr "monthly"] < 3)%nat)
  /\ rate_rows {| current_vendor := None; loaded := ∅ |} narrow_sheet
     = {| current_vendor := Some "Acme Cleaning";
          loaded := {["Acme Cleaning" := ∅]} |}.
Proof.
  assert (names_vendor (SStr "Acme Cleaning") "Acme Cleaning") as Hname.
  { repeat split; [discriminate | discriminate | simpl; lia]. }
  split; [split; [reflexivity | split; [exact Hname | simpl; lia]]|].
  assert (length [SStr "Acme Cleaning"; SStr "monthly"] < 3)%nat as Hnarrow
    by (simpl; lia).
  exact (narrow_rate_sheet_stops_loading
           {| current_vendor := None; loaded := ∅ |}
           [SStr "Acme Cleaning"; SStr "monthly"]
           [[SStr "Budd Services"; SStr "annual"]]
           (SStr "Acme Cleaning") "Acme Cleaning" eq_refl Hname Hnarrow).
Defined.



(** ** Registry loader: the agreements sheet *)










(** ** What the loaders never store *)

Lemma not_loader_key_not_rate_key (key : string) :
  ~ In key loader_keys -> not_a_rate_key key.
Proof.
  intros Hkey. split; intros ->; apply Hkey; simpl; tauto.
Qed.

Lemma agreement_record_keys (df : DataFrame) (row : list scalar) :
  only_loader_keys (agreement_record df row).
Proof.
  intros key Hkey. unfold agreement_record. simpl list_to_map.
  rewrite !lookup_insert_ne; [apply lookup_empty|..];
    intros <-; apply Hkey; simpl; tauto.
Qed.

Lemma only_loader_keys_agreements (df : DataFrame) (rows : list (list scalar))
    (vd : gmap string record) :
  map_Forall (fun _ entry => only_loader_keys entry) vd ->
  map_Forall (fun _ entry => only_loader_keys entry)
             (fold_left (agreement_row df) rows vd).
Proof.
  revert vd. induction rows as [|row rows IH]; intros vd Hvd; [done|].
  simpl. apply IH. unfold agreement_row.
  destruct (negb _ && negb _); [|done].
  apply map_Forall_insert_2; [apply agreement_record_keys | done].
Qed.

Lemma only_loader_keys_load (self : PDFVendorMatcher)
    (sheet : option (list (list scalar))) :
  map_Forall (fun _ entry => only_loader_keys entry) (vendor_data self) ->
  map_Forall (fun _ entry => only_loader_keys entry)
             (vendor_data (_load_rate_data self sheet)).
Proof.
  destruct sheet as [rows|]; intros Hok; simpl; [|done].
  apply (rate_rows_ind
           (fun st => map_Forall (fun _ entry => only_loader_keys entry)
                                 (loaded st))); [done|].
  intros st row Hst.
  destruct (rate_row_loaded st row)
    as [-> | (vendor_name & amount & keyword & -> & _)]; [done|].
  apply map_Forall_insert_2; [|done].
  intros key Hkey.
  rewrite update_rate_other_key by (by apply not_loader_key_not_rate_key).
  destruct (loaded st !! vendor_name) as [old|] eqn:Hold; simpl.
  - by apply (Hst vendor_name old Hold).
  - apply lookup_empty.
Qed.

Lemma only_loader_keys_init (wb : workbook) (api_url api_key : option string) :
  map_Forall (fun _ entry => only_loader_keys entry)
             (vendor_data (__init__ wb api_url api_key)).
Proof.
  unfold __init__. apply only_loader_keys_load.
  unfold _load_vendor_data, _load_vendor_list_fallback.
  destruct (service_agreements wb) as [df|];
    [destruct (Text.mem "Vendor" (columns df))|];
    repeat match goal with
           | |- context [match ?o with Some _ => _ | None => _ end] =>
               destruct o
           end;
    simpl vendor_data; try apply only_loader_keys_agreements;
    apply map_Forall_empty.
Qed.

Lemma no_contact_route (self : PDFVendorMatcher) (vendor_name : pyval)
    (po_validation date_validation rate_validation chosen : pydict) :
  map_Forall (fun _ entry => only_loader_keys entry) (vendor_data self) ->
  _determine_contact_person self vendor_name po_validation date_validation
    rate_validation = Ret chosen ->
  dict_get chosen "role" = PStr ROLE_UNKNOWN
  /\ dict_get chosen "name" = PStr "Unknown".
Proof.
  intros Hkeys. unfold _determine_contact_person.
  destruct (registry_lookup self vendor_name) as [[vendor_info|]|e] eqn:Hlookup;
    simpl obind; [| by intros [= <-] | discriminate].
  destruct (registry_lookup_found _ _ _ Hlookup) as (name & -> & Hentry).
  pose proof (Hkeys name vendor_info Hentry) as Hnone.
  assert (forall key, ~ In key loader_keys -> record_get vendor_info key = SNone)
    as Hget.
  { intros key Hkey. unfold record_get. by rewrite (Hnone key Hkey). }
  rewrite !Hget by (simpl; intuition discriminate).
  unfold py_or. simpl scalar_truthy. cbv iota.
  replace (usable SNone) with false by done.
  rewrite andb_false_r. by intros [= <-].
Qed.

(** X15. The two loaders write contract dates, PO fields and rate fields
    and nothing else, so a registry built by [__init__] holds no director,
    admin or main contact for any vendor. On such a registry the routing
    never names a person: whatever the checks say, it returns the name
    "Unknown" with the role "Unknown", and no result of [process_pdf] is
    routed to a director or to an admin. *)
Theorem loaded_registry_routes_to_nobody
    (wb : workbook) (api_url api_key : option string) :
  let self := __init__ wb api_url api_key in
  (forall name entry key,
     vendor_data self !! name = Some entry ->
     ~ In key loader_keys -> entry !! key = None)
  /\ (forall vendor_name po_validation date_validation rate_validation chosen,
        _determine_contact_person self vendor_name po_validation
          date_validation rate_validation = Ret chosen ->
        dict_get chosen "role" = PStr ROLE_UNKNOWN
        /\ dict_get chosen "name" = PStr "Unknown")
  /\ (forall w pdf_path r,
        result (process_pdf self w pdf_path) = Ret r ->
        dict_get r "contact_role" <> PStr ROLE_DIRECTOR
        /\ dict_get r "contact_role" <> PStr ROLE_ADMIN).
Proof.
  intros self.
  pose proof (only_loader_keys_init wb api_url api_key) as Hkeys.
  fold self in Hkeys.
  split; [intros name entry key Hentry; by apply (Hkeys name entry Hentry)|].
  split; [intros; by eapply no_contact_route|].
  intros w pdf_path r Hrun.
  destruct (process_pdf_inv self w pdf_path r Hrun)
    as [-> | [-> | [-> |
         (api_response & vendor_name & po_validation & date_validation
          & date_dict & rate_validation & contact_person & Hrest)]]];
    try (split; vm_compute; discriminate).
  cbv zeta in Hrest.
  destruct Hrest as (_ & _ & _ & _ & _ & _ & _ & Hroute & _ & _ & _ & _ & _
                     & _ & Erole & _).
  destruct (no_contact_route _ _ _ _ _ _ Hkeys Hroute) as [Hrole _].
  rewrite Erole, Hrole. split; discriminate.
Qed.

Lemma loaded_registry_witness :
  let self := __init__ sample_workbook (Some "url") (Some "key") in
  let w := Scenario.agreeable "Acme Cleaning" "Acme Cleaning P26003063" in
  exists r,
    result (process_pdf self w "acme.pdf") = Ret r
    /\ dict_get r "po_valid" = PTrue
    /\ dict_get r "contact_role" <> PStr ROLE_DIRECTOR
    /\ dict_get r "contact_role" <> PStr ROLE_ADMIN.
Proof.
  intros self w. eexists. split; [reflexivity|]. split; [reflexivity|].
  destruct (loaded_registry_routes_to_nobody sample_workbook (Some "url")
              (Some "key")) as (_ & _ & Hrun).
  apply (Hrun w "acme.pdf"). reflexivity.
Defined.

(** ** A registry loaded without the agreements sheet *)

Lemma bind_lift_ret {A B} (a : A) (k : A -> M B) : bind (lift (Ret a)) k = k a.
Proof. unfold bind, lift. by destruct (k a). Qed.

Lemma rate_only_load (rows : list (list scalar)) (name : string)
    (entry : record) (key : string) :
  loaded (rate_rows {| current_vendor := None; loaded := ∅ |} rows) !! name
    = Some entry ->
  not_a_rate_key key -> entry !! key = None.
Proof.
  intros Hentry Hkey. revert name entry Hentry.
  apply (rate_rows_ind
           (fun st => forall name entry,
              loaded st !! name = Some entry -> entry !! key = None)).
  - intros name entry. simpl. by rewrite lookup_empty.
  - intros st row Hst name entry.
    destruct (rate_row_loaded st row)
      as [-> | (vendor_name & amount & keyword & -> & _)]; [apply Hst|].
    destruct (decide (vendor_name = name)) as [->|Hne].
    + rewrite lookup_insert_eq. intros [= <-].
      rewrite update_rate_other_key by done.
      destruct (loaded st !! name) as [old|] eqn:Hold; simpl;
        [by apply (Hst name) | apply lookup_empty].
    + rewrite lookup_insert_ne by done. apply Hst.
Qed.

(** X16. When the agreements sheet cannot be read, or has no "Vendor"
    column, [__init__] falls back to a bare list of names and the
    registry knows rates only. Then no PO check is ever valid (it is
    inapplicable for a vendor of the rate sheet and invalid, "vendor not
    found", for any other) and no date check is ever handed to the
    service. *)
Theorem fallback_registry_checks_nothing
    (wb : workbook) (api_url api_key : option string) :
  service_agreements wb = None
  \/ (exists df, service_agreements wb = Some df
                 /\ Text.mem "Vendor" (columns df) = false) ->
  let self := __init__ wb api_url api_key in
  (forall pdf_text name,
     exists r,
       validate_po_number self pdf_text (PStr name) = Ret r
       /\ (dict_get r "po_valid" = PNone \/ dict_get r "po_valid" = PFalse))
  /\ (forall w pdf_text name,
        exists d,
          validate_date_range self w pdf_text (PStr name) = ([], Ret (PDict d))
          /\ (dict_get d "date_valid" = PNone
              \/ dict_get d "date_valid" = PFalse)).
Proof.
  intros Hfallback self.
  assert (forall name entry key,
            vendor_data self !! name = Some entry ->
            not_a_rate_key key -> entry !! key = None) as Hrates.
  { subst self. unfold __init__, _load_vendor_data.
    assert (vendor_data
              (_load_vendor_list_fallback
                 {| vendor_list := []; vendor_data := ∅;
                    amplify_api_url := api_url; amplify_api_key := api_key |}
                 (first_sheet_read wb)) = ∅) as Hempty.
    { unfold _load_vendor_list_fallback.
      repeat match goal with
             | |- context [match ?o with Some _ => _ | None => _ end] =>
                 destruct o
             end; done. }
    intros name entry key.
    destruct Hfallback as [-> | (df & -> & ->)];
      (destruct (vendors_rates wb) as [rows|]; simpl; rewrite Hempty;
       [intros Hentry Hkey; by apply (rate_only_load rows name entry key)
       | by rewrite lookup_empty]). }
  split.
  - intros pdf_text name. unfold validate_po_number.
    rewrite registry_lookup_name.
    destruct (vendor_data self !! name) as [entry|] eqn:Hentry; simpl obind.
    + unfold record_get.
      rewrite (Hrates name entry "current_po" Hentry) by (by split).
      simpl. eexists. split; [done|]. by left.
    + eexists. split; [done|]. by right.
  - intros w pdf_text name. unfold validate_date_range.
    rewrite registry_lookup_name, bind_lift_ret.
    destruct (vendor_data self !! name) as [entry|] eqn:Hentry.
    + unfold record_get.
      rewrite (Hrates name entry "contract_start" Hentry) by (by split).
      simpl. eexists. split; [done|]. by left.
    + simpl. eexists. split; [done|]. by right.
Qed.

Lemma fallback_registry_witness :
  let wb := {| service_agreements := None;
               first_sheet_read := Some agreements_sheet;
               vendors_rates := Some rates_sheet |} in
  let self := __init__ wb (Some "url") (Some "key") in
  service_agreements wb = None
  /\ In "Acme Cleaning" (vendor_list self)
  /\ exists r,
       validate_po_number self "Acme Cleaning P26003063" (PStr "Acme Cleaning")
         = Ret r
       /\ (dict_get r "po_valid" = PNone \/ dict_get r "po_valid" = PFalse).
Proof.
  intros wb self. split; [reflexivity|]. split; [by left|].
  destruct (fallback_registry_checks_nothing wb (Some "url") (Some "key")
              (or_introl eq_refl)) as [Hpo _].
  apply Hpo.
Defined.

(** ** An invoice that passes every check *)




(** ** When the orchestrator returns *)








Example process_pdf_raises_on_a_list_of_dates :
  let w := {| extract_pdf_text := fun _ => Scenario.invoice_text;
              post := fun q =>
                match q with
                | VendorQuery _ _ =>
                    Scenario.answer [("vendor", PStr Scenario.mid_south)]
                | _ => Response 200 (Json (PList [PStr "2025-06-15"]))
                end |} in
  result (process_pdf Scenario.matcher w "invoice.pdf") = Raise AttributeError.
Proof. reflexivity. Qed.

(** ** Answers that name no vendor *)

(** X19. An answer of the resolver that names no vendor counts as "no
    match": so does an empty or unparseable answer, an answer that parses
    to null, to an empty object or to another empty value, and a JSON
    object whose "vendor" is missing, null, the empty string, zero or
    false. In each case [process_pdf] returns the no-match result after
    the one request to the resolver and runs no check. *)
Theorem answer_without_vendor_is_no_match
    (self : PDFVendorMatcher) (w : world) (pdf_path : string) :
  let pdf_text := extract_pdf_text w pdf_path in
  let reply := post w (VendorQuery pdf_text (vendor_list self)) in
  Text.is_empty pdf_text = false ->
  configured self = true ->
  reply = Response 200 NoData
  \/ reply = Response 200 Unparseable
  \/ (exists v, decoded reply = Some v /\ truthy v = false)
  \/ (exists d, decoded reply = Some (PDict d)
                /\ truthy (dict_get d "vendor") = false) ->
  process_pdf self w pdf_path
  = ([VendorQuery pdf_text (vendor_list self)], Ret no_match_result).
Proof.
  intros pdf_text reply Htext Hconf Hreply.
  assert (exists api_response,
            query_amplify_api self w pdf_text
            = ([VendorQuery pdf_text (vendor_list self)], Ret api_response)
            /\ no_match api_response = Ret true) as (api & Hquery & Hmatch).
  { unfold query_amplify_api. rewrite Hconf. simpl negb. cbv iota.
    rewrite bind_request. fold reply.
    assert (forall v, decoded reply = Some v ->
              (calls (match reply with
                      | CallRaised _ => ret PNone
                      | Response status_code data =>
                          if (status_code =? 200)%Z then
                            match data with
                            | NoData => ret no_vendor
                            | Json v => ret v
                            | FencedJson v => ret v
                            | Unparseable => ret no_vendor
                            end
                          else ret PNone
                      end),
               result (match reply with
                       | CallRaised _ => ret PNone
                       | Response status_code data =>
                           if (status_code =? 200)%Z then
                             match data with
                             | NoData => ret no_vendor
                             | Json v => ret v
                             | FencedJson v => ret v
                             | Unparseable => ret no_vendor
                             end
                           else ret PNone
                       end)) = ([], Ret v)) as Hdecoded.
    { intros v. destruct reply as [msg|status_code data]; [done|].
      simpl. destruct data; try done;
        (destruct (status_code =? 200)%Z; [by intros [= <-] | done]). }
    destruct Hreply as [-> | [-> | [(v & Hv & Hfalsy) | (d & Hd & Hfalsy)]]].
    - by eexists.
    - by eexists.
    - apply Hdecoded in Hv. injection Hv as Hcalls Hresult.
      rewrite Hcalls, Hresult. eexists. split; [done|].
      unfold no_match. by rewrite Hfalsy.
    - apply Hdecoded in Hd. injection Hd as Hcalls Hresult.
      rewrite Hcalls, Hresult. eexists. split; [done|].
      unfold no_match. destruct (truthy (PDict d)); simpl negb; cbv iota;
        [|done].
      simpl py_in. simpl py_getitem. unfold obind, dict_get in *.
      destruct (d !! "vendor") as [x|].
      + rewrite bool_decide_true by eauto. simpl in *. by rewrite Hfalsy.
      + by rewrite bool_decide_false by (by intros [? ?]). }
  unfold process_pdf. fold pdf_text. rewrite Htext, Hconf. simpl negb.
  cbv iota. rewrite Hquery. unfold bind. rewrite Hmatch. done.
Qed.

Lemma answer_without_vendor_witness :
  let w := {| extract_pdf_text := fun _ => Scenario.invoice_text;
              post := fun _ => Scenario.answer [("vendor", PStr EmptyString)] |} in
  (Text.is_empty (extract_pdf_text w "invoice.pdf") = false
   /\ configured Scenario.matcher = true)
  /\ process_pdf Scenario.matcher w "invoice.pdf"
     = ([VendorQuery Scenario.invoice_text (vendor_list Scenario.matcher)],
        Ret no_match_result).
Proof.
  intros w. split; [by split|].
  apply (answer_without_vendor_is_no_match Scenario.matcher w "invoice.pdf"
           eq_refl eq_refl).
  right. right. right.
  exists (dict_of [("vendor", PStr EmptyString)]). by split.
Defined.

(** ** Text extractor: the normal form of the result *)

Lemma normal_from_app (a b : string) (sep : ascii) (after_space : bool) :
  Ascii.eqb sep " " || Ascii.eqb sep Extractor.newline = true ->
  normal_from after_space a = true ->
  normal_from true b = true ->
  normal_from after_space (a +:+ String sep b) = true.
Proof.
  intros Hsep Ha Hb. revert after_space Ha.
  induction a as [|c a IH]; intros after_space Ha.
  - simpl in Ha. apply negb_true_iff in Ha as ->.
    rewrite append_nil_l. simpl.
    assert (Text.is_space sep = true) as ->.
    { apply orb_true_iff in Hsep as [->%Ascii.eqb_eq | ->%Ascii.eqb_eq]; done. }
    by rewrite Hsep, Hb.
  - rewrite append_cons. simpl in *. destruct (Text.is_space c).
    + apply andb_true_iff in Ha as [Ha Htail]. rewrite Ha. by apply IH.
    + by apply IH.
Qed.

Lemma words_normal (s : string) :
  Forall (fun w => normal_from true w = true /\ normal_from false w = true)
         (Extractor.words s).
Proof.
  induction s as [|c s IH]; [constructor|]. simpl.
  destruct (Text.is_space c) eqn:Hc; [done|].
  destruct (Extractor.starts_word s).
  - destruct (Extractor.words s) as [|w ws].
    + constructor; [|done]. simpl. by rewrite Hc.
    + inversion IH as [|? ? [_ Hw] Hws]; subst. constructor; [|done].
      simpl. by rewrite Hc.
  - constructor; [|done]. simpl. by rewrite Hc.
Qed.

Lemma join_normal (sep : ascii) (l : list string) :
  Ascii.eqb sep " " || Ascii.eqb sep Extractor.newline = true ->
  Forall (fun w => normal_from true w = true) l ->
  l <> [] ->
  normal_from true (Text.join (String sep EmptyString) l) = true.
Proof.
  intros Hsep Hall Hne. induction Hall as [|w ws Hw Hws IH]; [done|].
  destruct ws as [|w' ws]; [done|].
  change (Text.join (String sep EmptyString) (w :: w' :: ws))
    with (w +:+ String sep EmptyString
            +:+ Text.join (String sep EmptyString) (w' :: ws)).
  change (String sep EmptyString +:+ ?x) with (String sep x).
  apply normal_from_app; [done..|]. by apply IH.
Qed.

Lemma clean_line_normal (line : string) :
  normalised (Extractor.clean_line line) = true.
Proof.
  unfold normalised, Extractor.clean_line.
  destruct (Extractor.words line) as [|w ws] eqn:Hwords; [done|].
  apply orb_true_iff. right. apply join_normal; [done | | done].
  rewrite <- Hwords. eapply Forall_impl; [apply words_normal|].
  by intros ? [? _].
Qed.

Lemma cleaned_lines_normal (lines : list string) :
  Forall (fun l => normal_from true l = true)
         (filter (fun cleaned_line => negb (Text.is_empty cleaned_line))
                 (map Extractor.clean_line lines)).
Proof.
  induction lines as [|line lines IH]; [constructor|].
  simpl. rewrite filter_cons.
  pose proof (clean_line_normal line) as Hline. unfold normalised in Hline.
  destruct (Extractor.clean_line line) as [|c l] eqn:Hclean; [done|].
  simpl in Hline |- *. by constructor.
Qed.

Lemma normal_starts_word (s : string) :
  normal_from true s = true -> Extractor.starts_word s = true.
Proof.
  destruct s as [|c s]; [done|]. simpl. by destruct (Text.is_space c).
Qed.

Lemma rstrip_normal (s : string) (after_space : bool) :
  normal_from after_space s = true -> Text.rstrip s = s.
Proof.
  revert after_space. induction s as [|c s IH]; intros after_space; [done|].
  simpl. destruct (Text.is_space c) eqn:Hc.
  - intros [_ Htail]%andb_true_iff. rewrite (IH _ Htail).
    by destruct s.
  - intros Htail. rewrite (IH _ Htail). destruct s; [|done].
    by rewrite ?Hc.
Qed.

Lemma strip_normal (s : string) :
  normal_from true s = true -> Text.strip s = s.
Proof.
  intros Hs. unfold Text.strip.
  assert (Text.lstrip s = s) as ->.
  { apply normal_starts_word in Hs. destruct s as [|c s]; [done|].
    simpl in *. by destruct (Text.is_space c). }
  by apply (rstrip_normal s true).
Qed.

(** X20. The text that the extractor returns is normalised: it is empty,
    or it starts and ends with a character that is not white space, and
    every white space character in it is a single blank or a single
    newline between two such characters. There is no tab, no run of
    blanks, no blank at the start or the end of a line and no empty
    line. *)
Theorem extracted_text_is_normalised
    (pypdf2 : Extractor.library_run)
    (pdfplumber : option Extractor.library_run) :
  normalised (Extractor.extract_pdf_text pypdf2 pdfplumber) = true.
Proof.
  unfold Extractor.extract_pdf_text, Extractor.clean_text.
  set (text := Extractor.raw_text pypdf2 pdfplumber).
  destruct (Text.is_empty text) eqn:Hempty.
  { by destruct text. }
  pose proof (cleaned_lines_normal (Extractor.split_on Extractor.newline text))
    as Hlines.
  destruct (filter _ _) as [|l ls] eqn:Hfilter; [done|].
  assert (normal_from true
            (Text.join (String Extractor.newline EmptyString) (l :: ls)) = true)
    as Hjoin by (by apply join_normal).
  rewrite (strip_normal _ Hjoin). unfold normalised. by rewrite Hjoin, orb_true_r.
Qed.

Example extracted_text_normalised_example :
  Extractor.extract_pdf_text
    {| Extractor.pages_read :=
         [Some "  Invoice    12628   "; Some "   "; Some "Total   $505.00 "];
       Extractor.raised := false |}
    None
  = "Invoice 12628" +:+ String Extractor.newline "Total $505.00".
Proof. reflexivity. Qed.

(** ** Registry loader: a vendor listed twice *)

Lemma agreements_fold_other (df : DataFrame) (rows : list (list scalar))
    (vd : gmap string record) (name : string) :
  Forall (fun later =>
            Text.strip (py_str (row_get df later "Vendor")) <> name) rows ->
  fold_left (agreement_row df) rows vd !! name = vd !! name.
Proof.
  intros Hrows. revert vd.
  induction Hrows as [|row rows Hrow Hrows IH]; intros vd; [done|].
  simpl. rewrite IH. unfold agreement_row.
  destruct (negb _ && negb _); [|done]. by rewrite lookup_insert_ne.
Qed.

Lemma agreements_fold_last (df : DataFrame)
    (before after : list (list scalar)) (row : list scalar)
    (vd : gmap string record) :
  let name := Text.strip (py_str (row_get df row "Vendor")) in
  Text.is_empty name = false ->
  (Text.lower name =? "nan")%string = false ->
  Forall (fun later =>
            Text.strip (py_str (row_get df later "Vendor")) <> name) after ->
  fold_left (agreement_row df) (before ++ row :: after)%list vd !! name
  = Some (agreement_record df row).
Proof.
  intros name Hnonempty Hnan Hafter.
  rewrite fold_left_app. simpl. rewrite agreements_fold_other by done.
  unfold agreement_row. fold name. rewrite Hnonempty, Hnan. simpl.
  by rewrite lookup_insert_eq.
Qed.

(** X21. When the agreements sheet lists a vendor more than once, the
    record of the last such row replaces the earlier ones as a whole:
    after construction the contract dates and the purchase order fields of
    the vendor are those of its last row, also where that row has an empty
    cell and an earlier row had a value. *)
Theorem last_agreement_row_wins
    (wb : workbook) (df : DataFrame) (api_url api_key : option string)
    (before after : list (list scalar)) (row : list scalar) :
  service_agreements wb = Some df ->
  Text.mem "Vendor" (columns df) = true ->
  frame_rows df = (before ++ row :: after)%list ->
  let name := Text.strip (py_str (row_get df row "Vendor")) in
  Text.is_empty name = false ->
  Text.lower name <> "nan" ->
  Forall (fun later =>
            Text.strip (py_str (row_get df later "Vendor")) <> name) after ->
  exists entry,
    vendor_data (__init__ wb api_url api_key) !! name = Some entry
    /\ forall key, not_a_rate_key key ->
         entry !! key = agreement_record df row !! key.
Proof.
  intros Hsheet Hcol Hrows name Hnonempty Hnan Hafter.
  unfold __init__. apply load_rate_data_keeps.
  rewrite Hsheet. simpl. rewrite Hcol. simpl. rewrite Hrows.
  apply agreements_fold_last; [done | | done].
  by apply String.eqb_neq.
Qed.

Lemma last_agreement_row_witness :
  exists entry : record,
    vendor_data
      (__init__ {| service_agreements := Some renewed_agreements_sheet;
                   first_sheet_read := None;
                   vendors_rates := Some rates_sheet |} None None)
      !! "Acme Cleaning" = Some entry
    /\ entry !! "current_po" = Some SNaN
    /\ entry !! "contract_end" = Some (SDate 2025 12 31).
Proof.
  destruct (last_agreement_row_wins
              {| service_agreements := Some renewed_agreements_sheet;
                 first_sheet_read := None;
                 vendors_rates := Some rates_sheet |}
              renewed_agreements_sheet None None
              [ [SStr "Acme Cleaning"; SDate 2024 1 1; SDate 2024 12 31;
                 SStr "P25001111"] ]
              [ [SStr "Budd Services"; SNaT; SNaT; SNaN] ]
              [SStr "Acme Cleaning "; SDate 2025 1 1; SDate 2025 12 31; SNaN]
              eq_refl eq_refl eq_refl eq_refl ltac:(discriminate)
              ltac:(repeat constructor; discriminate))
    as (entry & Hentry & Hfields).
  exists entry. split; [exact Hentry|].
  split; rewrite Hfields by (split; discriminate); reflexivity.
Defined.
